(** * interface_PolyFoxScreen: the chromatogram dashboard ([interface2.py])

    A shallow embedding of the coordination logic of the dashboard: the time
    normaliser [convert_time_to_minutes], the peak analysis adapter
    [process_chromatogram_hplc] and the script body [main], together with the
    properties the specification states about them.

    The script talks to three collaborators that are not part of the
    repository: pandas (parsing, frames), the hplc package (the chromatogram
    object and its fit routine) and the widget and plotting layer.  They are
    interfaces here (type classes); what the script does between the calls is
    embedded as it is written.  Everything the script shows to the user, and
    every call it makes to [pd.read_csv] and to the hplc package, is recorded
    in a trace. *)

From Stdlib Require Import ZArith QArith List String Ascii Bool Lia.
From Stdlib.Strings Require Import Byte.
From stdpp Require Import base option list strings pretty.

Local Open Scope string_scope.
Local Open Scope list_scope.

(** ** Exceptions *)

(** The exception classes the script tells apart.  All of them derive from
    [Exception]; [st.stop()] is not one of them (see [Halt] below). *)
Inductive exc_class : Type :=
  | UnicodeDecodeError
  | KeyError
  | TypeError
  | OtherError (name : string).

(** An exception instance: its class and [str(e)]. *)
Record exception : Type := Exc { exc_type : exc_class; exc_str : string }.

Definition is_UnicodeDecodeError (e : exception) : bool :=
  match exc_type e with UnicodeDecodeError => true | _ => false end.

(** The two codecs the script asks [pd.read_csv] for. *)
Inductive encoding : Type := utf_8 | latin1.

(** What a call of a collaborator gives back: a value or a raised exception. *)
Inductive result (A : Type) : Type :=
  | Returns (a : A)
  | Raises (e : exception).
Arguments Returns {A} a.
Arguments Raises {A} e.

(** How a piece of the script ends: with a value, with an exception that an
    [except Exception] can catch, or with [st.stop()], whose signal derives
    from [BaseException] and passes through every handler of the script. *)
Inductive outcome (A : Type) : Type :=
  | Ok (a : A)
  | Raise (e : exception)
  | Halt.
Arguments Ok {A} a.
Arguments Raise {A} e.
Arguments Halt {A}.

(** ** Numbers *)

(** The numeric cells of a frame (int64 or float64 in pandas).  [truediv x k]
    is Python's [x / k] for an integer literal [k]; [num_of_Q] reads a decimal
    literal of the script such as [0.02]. *)
Class Numeric : Type := {
  num : Type;
  truediv : num → Z → num;
  num_of_Q : Q → num;
}.

Section Frames.
Context `{Numeric}.

(** ** Frames *)

Inductive cell : Type :=
  | CNum (x : num)
  | CStr (s : string).

(** A Series is the list of its cells; a DataFrame is the ordered list of its
    labelled columns.  Frames read from a file have pairwise distinct labels. *)
Definition Series : Type := list cell.
Definition DataFrame : Type := list (string * Series).

(** [pd.DataFrame()] *)
Definition DataFrame_new : DataFrame := [].

(** [df.columns] *)
Definition columns (df : DataFrame) : list string := map fst df.

(** [name in df.columns] *)
Definition in_columns (name : string) (df : DataFrame) : bool :=
  existsb (String.eqb name) (columns df).

(** The column behind [df[name]], when the label exists. *)
Fixpoint column (name : string) (df : DataFrame) : option Series :=
  match df with
  | [] => None
  | (n, s) :: rest => if String.eqb name n then Some s else column name rest
  end.

(** [df.loc[:, name] = s]: the column of that label is replaced; a label the
    frame does not have yet is added at the end. *)
Definition set_column (name : string) (s : Series) (df : DataFrame) : DataFrame :=
  if in_columns name df
  then map (λ c, if String.eqb name (fst c) then (fst c, s) else c) df
  else df ++ [(name, s)].

(** [df.empty]: no columns, or no rows. *)
Definition empty (df : DataFrame) : bool :=
  match df with
  | [] => true
  | (_, s) :: _ => Nat.eqb (length s) 0
  end.

(** [len(df)] *)
Definition len (df : DataFrame) : nat :=
  match df with
  | [] => 0
  | (_, s) :: _ => length s
  end.

(** [df.head(n)]: the first [n] rows. *)
Definition DataFrame_head (n : nat) (df : DataFrame) : DataFrame :=
  map (λ c, (fst c, take n (snd c))) df.

(** [x / k] on one cell, as the lambda given to [Series.apply] computes it. *)
Definition cell_truediv (k : Z) (c : cell) : result cell :=
  match c with
  | CNum x => Returns (CNum (truediv x k))
  | CStr _ =>
      Raises (Exc TypeError "unsupported operand type(s) for /: 'str' and 'int'")
  end.

(** [s.apply(f)]: [f] on every cell in order; the first exception ends it. *)
Fixpoint Series_apply (f : cell → result cell) (s : Series) : result Series :=
  match s with
  | [] => Returns []
  | c :: rest =>
      match f c with
      | Raises e => Raises e
      | Returns c' =>
          match Series_apply f rest with
          | Raises e => Raises e
          | Returns rest' => Returns (c' :: rest')
          end
      end
  end.

(** ** What the user sees, and what pandas and the hplc package are asked

    [PdReadCsv d n enc pos] is a call of [pd.read_csv] with that delimiter,
    row limit and codec, made while the buffer stands at [pos]. *)

Inductive ax_cmd : Type :=
  | AxPlot (xs ys : Series) (fmt : string)
  | AxPlotPeaks (xs ys : Series) (fmt label : string)
  | AxVlines (xs ys : Series)
  | AxLegend
  | AxSetXlabel (s : string)
  | AxSetYlabel (s : string)
  | AxSetTitle (s : string)
  | AxGrid.

Inductive event : Type :=
  | StSetPageConfig (title : string)
  | StTitle (s : string)
  | StMarkdown (s : string)
  | StHeader (s : string)
  | StSubheader (s : string)
  | StSidebarHeader (s : string)
  | StSidebarWarning (s : string)
  | StInfo (s : string)
  | StSuccess (s : string)
  | StWarning (s : string)
  | StError (s : string)
  | StException (e : exception)
  | StWrite (s : string)
  | StWriteFrame (df : DataFrame)
  | StDataframe (df : DataFrame)
  | StMetric (label value : string)
  | StDownloadButton (label data file_name : string)
  | StPyplot (fig : list ax_cmd)
  | StWidget (label : string) (options : list string)
  | PdReadCsv (delimiter : option string) (nrows : option nat)
              (enc : encoding) (pos : nat)
  | HplcChromatogram (df : DataFrame) (time_col signal_col : string)
  | HplcFitPeaks.

(** ** The state of a run and the monad of the script *)

(** A frame object is a location in [frames]; [file_buffer] and [file_pos]
    are the content and the read position of the [io.BytesIO] buffer; [trace]
    is everything shown or called so far, oldest first. *)
Definition loc : Type := nat.

Record state : Type := State {
  frames : list DataFrame;
  file_buffer : list byte;
  file_pos : nat;
  trace : list event;
}.

Definition M (A : Type) : Type := state → outcome A * state.

Definition ret {A} (a : A) : M A := λ σ, (Ok a, σ).

Definition bind {A B} (m : M A) (k : A → M B) : M B :=
  λ σ, match m σ with
       | (Ok a, σ') => k a σ'
       | (Raise e, σ') => (Raise e, σ')
       | (Halt, σ') => (Halt, σ')
       end.

Definition raise {A} (e : exception) : M A := λ σ, (Raise e, σ).

(** [st.stop()] *)
Definition st_stop {A} : M A := λ σ, (Halt, σ).

(** [try: m  except <class> as e: h e], the class given as a test. *)
Definition try_except {A} (m : M A) (catches : exception → bool)
    (h : exception → M A) : M A :=
  λ σ, match m σ with
       | (Raise e, σ') => if catches e then h e σ' else (Raise e, σ')
       | r => r
       end.

(** [except Exception] *)
Definition any_Exception (e : exception) : bool := true.

(** The result of a collaborator's call enters the script. *)
Definition call {A} (r : result A) : M A :=
  match r with
  | Returns a => ret a
  | Raises e => raise e
  end.

Definition emit (ev : event) : M unit :=
  λ σ, (Ok tt, State (frames σ) (file_buffer σ) (file_pos σ) (trace σ ++ [ev])).

Definition st_info (s : string) : M unit := emit (StInfo s).
Definition st_success (s : string) : M unit := emit (StSuccess s).
Definition st_warning (s : string) : M unit := emit (StWarning s).
Definition st_error (s : string) : M unit := emit (StError s).
Definition st_exception (e : exception) : M unit := emit (StException e).

End Frames.

Declare Scope py_scope.
Delimit Scope py_scope with py.
Notation "x <- m ;; k" := (bind m (λ x, k))
  (at level 100, m at next level, right associativity,
   format "'[v' x  <-  m  ;;  '/' k ']'") : py_scope.
Notation "m ;;; k" := (bind m (λ _, k))
  (at level 100, right associativity,
   format "'[v' m  ;;;  '/' k ']'") : py_scope.
Local Open Scope py_scope.

Section Heap.
Context `{Numeric}.

(** ** Frame objects *)

(** The frame stored at a location (the empty frame stands at locations never
    allocated, which no reference of the script points to). *)
Definition frame_at (σ : state) (l : loc) : DataFrame :=
  default DataFrame_new (frames σ !! l).

Definition load (l : loc) : M DataFrame := λ σ, (Ok (frame_at σ l), σ).

(** A new frame object. *)
Definition alloc (df : DataFrame) : M loc :=
  λ σ, (Ok (length (frames σ)),
        State (frames σ ++ [df]) (file_buffer σ) (file_pos σ) (trace σ)).

(** In-place update of the object at [l]. *)
Definition store (l : loc) (df : DataFrame) : M unit :=
  λ σ, (Ok tt, State (<[l := df]> (frames σ)) (file_buffer σ) (file_pos σ) (trace σ)).

(** [data.copy()] *)
Definition DataFrame_copy (data : loc) : M loc :=
  df <- load data ;; alloc df.

(** [obj[name]]: [KeyError] for a label the frame does not have. *)
Definition getitem (obj : loc) (name : string) : M Series :=
  df <- load obj ;;
  match column name df with
  | Some s => ret s
  | None => raise (Exc KeyError ("'" +:+ name +:+ "'"))
  end.

(** [obj.loc[:, name] = s] *)
Definition loc_setitem (obj : loc) (name : string) (s : Series) : M unit :=
  df <- load obj ;; store obj (set_column name s df).

(** ** The time normaliser (lines 21-49) *)

Definition convert_time_to_minutes (data : loc) (time_col time_unit : string)
    : M loc :=
  data_copy <- DataFrame_copy data ;;
  (if String.eqb time_unit "Segundos" then
     s <- getitem data_copy time_col ;;
     s' <- call (Series_apply (cell_truediv 60) s) ;;
     loc_setitem data_copy time_col s' ;;;
     st_info "✅ Tempo convertido de segundos para minutos"
   else if String.eqb time_unit "Milisegundos" then
     s <- getitem data_copy time_col ;;
     s' <- call (Series_apply (cell_truediv 60000) s) ;;
     loc_setitem data_copy time_col s' ;;;
     st_info "✅ Tempo convertido de milissegundos para minutos"
   else if String.eqb time_unit "Minutos" then
     st_info "✅ Tempo já está em minutos"
   else
     st_warning ("Unidade de tempo desconhecida: " +:+ time_unit
                 +:+ ". Nenhuma conversão aplicada.")) ;;;
  ret data_copy.

End Heap.

(** ** The collaborators *)

Inductive statistic : Type := Mean | Max | Min | Sum.

(** pandas.  [read_csv bytes delimiter nrows enc] is [pd.read_csv] on the
    bytes that lie after the read position of the buffer: the frame it builds
    or the exception it raises, and how many bytes it has read.  [stat_3f] is
    a statistic of a column formatted with [:,.3f]. *)
Class Pandas `{Numeric} : Type := {
  read_csv : list byte → option string → option nat → encoding
             → result DataFrame * nat;
  describe : DataFrame → result DataFrame;
  to_csv : DataFrame → string;
  dtype : Series → string;
  stat_3f : statistic → Series → result string;
}.

(** A value of the [params] dictionary. *)
Inductive pyval `{Numeric} : Type :=
  | PBool (b : bool)
  | PInt (z : Z)
  | PFloat (x : num).

(** The hplc package: the constructor [Chromatogram(df, cols=...)] and the
    method [fit_peaks], which updates the object and returns the peak table. *)
Class Hplc `{Numeric} : Type := {
  Chromatogram : Type;
  Chromatogram_init : DataFrame → string → string → result Chromatogram;
  fit_peaks : Chromatogram → pyval → pyval → pyval → pyval
              → result (Chromatogram * DataFrame);
}.

Section Adapter.
Context `{Numeric} `{!Pandas} `{!Hplc}.

(** The module-level flag set by the import of the hplc package (lines 10-19). *)
Variable HPLC_LIB_AVAILABLE : bool.

(** A [Dict[str, Any]], in insertion order. *)
Definition dict : Type := list (string * pyval).

Fixpoint dict_get (d : dict) (key : string) : option pyval :=
  match d with
  | [] => None
  | (k, v) :: rest => if String.eqb key k then Some v else dict_get rest key
  end.

(** [d[key]] *)
Definition dict_getitem (d : dict) (key : string) : M pyval :=
  match dict_get d key with
  | Some v => ret v
  | None => raise (Exc KeyError ("'" +:+ key +:+ "'"))
  end.

(** [Chromatogram(data_df, cols={'time': time_col, 'signal': signal_col})] *)
Definition new_Chromatogram (data_df : loc) (time_col signal_col : string)
    : M Chromatogram :=
  df <- load data_df ;;
  emit (HplcChromatogram df time_col signal_col) ;;;
  call (Chromatogram_init df time_col signal_col).

(** [cromatograma.fit_peaks(correct_baseline=..., ...)]: the table it returns
    is a new frame object. *)
Definition call_fit_peaks (cromatograma : Chromatogram)
    (correct_baseline approx_peak_width buffer prominence : pyval)
    : M (Chromatogram * loc) :=
  emit HplcFitPeaks ;;;
  r <- call (fit_peaks cromatograma correct_baseline approx_peak_width
                       buffer prominence) ;;
  dados_picos <- alloc (snd r) ;;
  ret (fst r, dados_picos).

(** ** The peak analysis adapter (lines 52-95) *)

Definition process_chromatogram_hplc (data_df : loc)
    (time_col signal_col : string) (params : dict)
    : M (option Chromatogram * loc) :=
  if negb HPLC_LIB_AVAILABLE then
    st_error "❌ Biblioteca HPLC não está disponível. Não é possível processar picos." ;;;
    vazio <- alloc DataFrame_new ;;
    ret (None, vazio)
  else
    try_except
      (st_info "🛠️ Processando com biblioteca HPLC..." ;;;
       df <- load data_df ;;
       if negb (in_columns time_col df) || negb (in_columns signal_col df) then
         st_error ("Colunas '" +:+ time_col +:+ "' ou '" +:+ signal_col
                   +:+ "' não encontradas no DataFrame.") ;;;
         vazio <- alloc DataFrame_new ;;
         ret (None, vazio)
       else
         cromatograma <- new_Chromatogram data_df time_col signal_col ;;
         correct_baseline <- dict_getitem params "correct_baseline" ;;
         approx_peak_width <- dict_getitem params "approx_peak_width" ;;
         buffer <- dict_getitem params "buffer" ;;
         prominence <- dict_getitem params "prominence" ;;
         r <- call_fit_peaks cromatograma correct_baseline approx_peak_width
                             buffer prominence ;;
         st_success "✅ Análise de picos concluída." ;;;
         ret (Some (fst r), snd r))
      any_Exception
      (λ e,
         st_error ("❌ Erro ao processar com biblioteca HPLC: " +:+ exc_str e) ;;;
         st_exception e ;;;
         vazio <- alloc DataFrame_new ;;
         ret (None, vazio)).

End Adapter.

(** ** The script body *)

(** An uploaded file: [uploaded_file.name] and [uploaded_file.getvalue()]. *)
Record UploadedFile : Type := {
  name : string;
  getvalue : list byte;
}.

(** The value of every widget in this run, under the widget's key.  A select
    box holds the position the user chose, or nothing while it shows its
    default. *)
Record widgets `{Numeric} : Type := {
  correct_baseline_checkbox : bool;
  peak_width_slider : num;
  buffer_slider : Z;
  prominence_slider : num;
  file_uploader : option UploadedFile;
  delimiter_selector : option nat;
  time_column_selector : option nat;
  signal_column_selector : option nat;
  time_unit_selector : option nat;
  process_button : bool;
}.

Section Main.
Context `{Numeric} `{!Pandas} `{!Hplc}.
Variable HPLC_LIB_AVAILABLE : bool.

(** [st.selectbox(label, options, index=index)]: the option at the chosen
    position, [None] when there is none. *)
Definition st_selectbox (label : string) (options : list string)
    (index : nat) (chosen : option nat) : M (option string) :=
  emit (StWidget label options) ;;;
  ret (options !! default index chosen).

(** [st.button(label)] *)
Definition st_button (label : string) (pressed : bool) : M bool :=
  emit (StWidget label []) ;;; ret pressed.

(** [str(x)] of a value that is a string or [None]. *)
Definition py_str (x : option string) : string := default "None" x.

(** [not x] of a value that is a string or [None]. *)
Definition py_not (x : option string) : bool :=
  match x with
  | None => true
  | Some s => String.eqb s ""
  end.

(** [x in l] and [l.index(x)] on a list of strings. *)
Definition py_in (x : string) (l : list string) : bool :=
  existsb (String.eqb x) l.

Fixpoint py_index (x : string) (l : list string) : nat :=
  match l with
  | [] => 0
  | y :: rest => if String.eqb x y then 0 else S (py_index x rest)
  end.

(** [str(l)] of a list of strings. *)
Fixpoint py_repr_items (l : list string) : string :=
  match l with
  | [] => ""
  | [x] => "'" +:+ x +:+ "'"
  | x :: rest => "'" +:+ x +:+ "', " +:+ py_repr_items rest
  end.

Definition py_repr_list (l : list string) : string :=
  "[" +:+ py_repr_items l +:+ "]".

(** [file_buffer = io.BytesIO(data)] and [file_buffer.seek(n)] *)
Definition BytesIO (data : list byte) : M unit :=
  λ σ, (Ok tt, State (frames σ) data 0 (trace σ)).

Definition seek (n : nat) : M unit :=
  λ σ, (Ok tt, State (frames σ) (file_buffer σ) n (trace σ)).

(** [pd.read_csv(file_buffer, delimiter=..., nrows=..., encoding=...)]: reads
    from the read position on, moves it, and returns a new frame object. *)
Definition pd_read_csv (delimiter : option string) (nrows : option nat)
    (enc : encoding) : M loc :=
  λ σ, let r := read_csv (drop (file_pos σ) (file_buffer σ)) delimiter nrows enc in
       let σ' := State (frames σ) (file_buffer σ) (file_pos σ + snd r)
                       (trace σ ++ [PdReadCsv delimiter nrows enc (file_pos σ)]) in
       match fst r with
       | Returns df => alloc df σ'
       | Raises e => (Raise e, σ')
       end.

(** The sidebar (lines 108-125). *)
Definition sidebar (w : widgets) : M dict :=
  emit (StSidebarHeader "⚙️ Parâmetros de Análise (HPLC Lib)") ;;;
  if HPLC_LIB_AVAILABLE then
    emit (StWidget "Corrigir linha de base" []) ;;;
    emit (StWidget "Largura aproximada do pico" []) ;;;
    emit (StWidget "Buffer" []) ;;;
    emit (StWidget "Prominência" []) ;;;
    ret [("correct_baseline", PBool (correct_baseline_checkbox w));
         ("approx_peak_width", PFloat (peak_width_slider w));
         ("buffer", PInt (buffer_slider w));
         ("prominence", PFloat (prominence_slider w))]
  else
    emit (StSidebarWarning
            "Parâmetros de análise desabilitados (biblioteca HPLC não encontrada).") ;;;
    ret [("correct_baseline", PBool false);
         ("approx_peak_width", PFloat (num_of_Q (1 # 10)));
         ("buffer", PInt 100);
         ("prominence", PFloat (num_of_Q (2 # 100)))].

(** The preview read (lines 155-162). *)
Definition read_preview (delimiter : option string) : M loc :=
  seek 0 ;;;
  try_except (pd_read_csv delimiter (Some 10) utf_8)
    is_UnicodeDecodeError
    (λ _, seek 0 ;;; pd_read_csv delimiter (Some 10) latin1).

(** The read of the whole file for the information panel (lines 172-177). *)
Definition read_full_info (delimiter : option string) : M loc :=
  seek 0 ;;;
  try_except (pd_read_csv delimiter None utf_8)
    is_UnicodeDecodeError
    (λ _, seek 0 ;;; pd_read_csv delimiter None latin1).

(** The read of the whole file for processing (lines 259-264). *)
Definition read_data_df (delimiter : option string) : M loc :=
  seek 0 ;;;
  try_except (pd_read_csv delimiter None utf_8)
    is_UnicodeDecodeError
    (λ _, seek 0 ;;; pd_read_csv delimiter None latin1).

(** The expander with the preview and the information panel (lines 168-194);
    it gives back [full_data_info]. *)
Definition preview_panel (uploaded_file : UploadedFile)
    (delimiter : option string) (data_preview : loc) : M loc :=
  preview <- load data_preview ;;
  emit (StDataframe preview) ;;;
  full_data_info <- read_full_info delimiter ;;
  info <- load full_data_info ;;
  emit (StWrite "**Informações do dataset:**") ;;;
  emit (StWrite ("- Nome do ficheiro: " +:+ name uploaded_file)) ;;;
  emit (StWrite ("- Tamanho do ficheiro: "
                 +:+ pretty (length (getvalue uploaded_file)) +:+ " bytes")) ;;;
  emit (StWrite ("- Número de linhas (estimado): " +:+ pretty (len info))) ;;;
  emit (StWrite ("- Número de colunas: " +:+ pretty (length (columns info)))) ;;;
  emit (StWrite ("- Colunas: " +:+ py_repr_list (columns info))) ;;;
  emit (StWrite "**Estatísticas básicas (primeiras 10 linhas):**") ;;;
  try_except
    (d <- call (describe preview) ;; emit (StWriteFrame d))
    any_Exception
    (λ e, st_warning ("Não foi possível gerar estatísticas básicas: "
                      +:+ exc_str e)) ;;;
  ret full_data_info.

(** The options of the time unit select box (line 245). *)
Definition time_unit_options : list string :=
  ["Segundos"; "Minutos"; "Milissegundos"].

(** The options of the delimiter select box (line 146). *)
Definition delimiter_options : list string :=
  [","; ";"; String "009"%char ""; " "].

(** The default positions of the two column select boxes (lines 209-221). *)
Definition default_time_col_index (available_columns : list string) : nat :=
  if py_in "time" available_columns then py_index "time" available_columns
  else if py_in "tempo" available_columns then py_index "tempo" available_columns
  else 0.

Definition default_signal_col_index (available_columns : list string) : nat :=
  if py_in "signal" available_columns then py_index "signal" available_columns
  else if py_in "sinal" available_columns then py_index "sinal" available_columns
  else if py_in "intensity" available_columns
       then py_index "intensity" available_columns
  else if Nat.ltb 1 (length available_columns) then 1 else 0.

(** The column check (lines 200-204). *)
Definition check_columns (available_columns : list string) : M unit :=
  match available_columns with
  | [] =>
      st_error "Não foram detetadas colunas no ficheiro. Verifique o delimitador." ;;;
      st_stop
  | _ :: _ => ret tt
  end.

(** The three select boxes (lines 224-249). *)
Definition select_columns (w : widgets) (available_columns : list string)
    : M (option string * option string * option string) :=
  time_col <- st_selectbox "Coluna de Tempo" available_columns
                (default_time_col_index available_columns)
                (time_column_selector w) ;;
  signal_col <- st_selectbox "Coluna de Sinal" available_columns
                  (default_signal_col_index available_columns)
                  (signal_column_selector w) ;;
  time_unit <- st_selectbox "Unidade de Tempo" time_unit_options 0
                 (time_unit_selector w) ;;
  ret (time_col, signal_col, time_unit).

(** The chromatogram plot (lines 290-316). *)
Definition plot_chromatogram (data_df : loc) (time_col signal_col : string)
    (dados_picos : loc) : M unit :=
  emit (StSubheader "Cromatograma") ;;;
  df <- load data_df ;;
  fig <- (if in_columns time_col df && in_columns signal_col df then
            xs <- getitem data_df time_col ;;
            ys <- getitem data_df signal_col ;;
            picos <- load dados_picos ;;
            peaks <- (if negb (empty picos) && in_columns "rt" picos
                         && in_columns "height" picos then
                        rt <- getitem dados_picos "rt" ;;
                        height <- getitem dados_picos "height" ;;
                        ret [AxPlotPeaks rt height "ro" "Picos Detetados";
                             AxVlines rt height; AxLegend]
                      else ret []) ;;
            ret ([AxPlot xs ys "b-"] ++ peaks
                 ++ [AxSetXlabel (time_col +:+ " (" +:+ dtype xs +:+ ")");
                     AxSetYlabel (signal_col +:+ " (" +:+ dtype ys +:+ ")")])
          else
            st_error "Não foi possível plotar o cromatograma. Verifique as colunas e os dados." ;;;
            ret [AxSetXlabel "Tempo"; AxSetYlabel "Sinal"]) ;;
  emit (StPyplot (fig ++ [AxSetTitle "Cromatograma com Picos Detetados"; AxGrid])).

(** [st.metric(label, f"{dados_picos[col].stat():,.3f}")] *)
Definition metric_of (label : string) (dados_picos : loc) (col : string)
    (stat : statistic) : M unit :=
  s <- getitem dados_picos col ;;
  v <- call (stat_3f stat s) ;;
  emit (StMetric label v).

(** The panel with the peaks (lines 318-359). *)
Definition peaks_panel (dados_picos : loc) : M unit :=
  emit (StSubheader "Informações dos Picos") ;;;
  if HPLC_LIB_AVAILABLE then
    picos <- load dados_picos ;;
    if negb (empty picos) then
      emit (StMetric "Número de picos encontrados" (pretty (len picos))) ;;;
      emit (StDataframe picos) ;;;
      emit (StDownloadButton "💾 Transferir dados dos picos (CSV)"
              (to_csv picos) "picos_detectados.csv") ;;;
      emit (StSubheader "📈 Estatísticas dos Picos") ;;;
      if in_columns "height" picos && in_columns "area" picos then
        metric_of "Altura média" dados_picos "height" Mean ;;;
        metric_of "Altura máxima" dados_picos "height" Max ;;;
        metric_of "Altura mínima" dados_picos "height" Min ;;;
        metric_of "Área Total" dados_picos "area" Sum ;;;
        metric_of "Área média" dados_picos "area" Mean ;;;
        metric_of "Área máxima" dados_picos "area" Max
      else ret tt
    else
      st_warning "Nenhum pico foi detectado com os parâmetros atuais."
  else
    st_info "Análise de picos requer a biblioteca HPLC.".

(** What the button runs (lines 257-364). *)
Definition process (delimiter : option string)
    (time_col signal_col time_unit : string) (params : dict) : M unit :=
  try_except
    (data_df <- read_data_df delimiter ;;
     data_df <- convert_time_to_minutes data_df time_col time_unit ;;
     dados_picos <- alloc DataFrame_new ;;
     r <- (if HPLC_LIB_AVAILABLE then
             process_chromatogram_hplc HPLC_LIB_AVAILABLE
               data_df time_col signal_col params
           else
             st_warning "Biblioteca HPLC não disponível. A detecção de picos será ignorada." ;;;
             ret (None, dados_picos)) ;;
     emit (StHeader "📈 Resultados da Análise") ;;;
     plot_chromatogram data_df time_col signal_col (snd r) ;;;
     peaks_panel (snd r))
    any_Exception
    (λ e,
       st_error ("❌ Ocorreu um erro durante o processamento dos dados: "
                 +:+ exc_str e) ;;;
       st_exception e).

(** The button and what it guards (lines 252-256). *)
Definition process_on_button (w : widgets) (delimiter : option string)
    (time_col signal_col time_unit : option string) (params : dict) : M unit :=
  pressed <- st_button "🚀 Processar Cromatograma" (process_button w) ;;
  if pressed then
    if py_not time_col || py_not signal_col then
      st_warning "Por favor, selecione as colunas de Tempo e Sinal."
    else
      process delimiter (py_str time_col) (py_str signal_col)
              (py_str time_unit) params
  else ret tt.

(** The handler of a failed read (lines 367-370). *)
Definition report_read_error (delimiter : option string) (e : exception)
    : M unit :=
  st_error ("❌ Erro ao ler o ficheiro com o delimitador '"
            +:+ py_str delimiter +:+ "': " +:+ exc_str e) ;;;
  st_info "💡 Tente ajustar o delimitador ou verificar se o ficheiro é realmente CSV/DAT compatível." ;;;
  st_exception e.

(** The branch of an uploaded file (lines 140-370). *)
Definition with_uploaded_file (w : widgets) (uploaded_file : UploadedFile)
    (params : dict) : M unit :=
  BytesIO (getvalue uploaded_file) ;;;
  delimiter <- st_selectbox "Delimitador" delimiter_options 0
                 (delimiter_selector w) ;;
  try_except
    (data_preview <- read_preview delimiter ;;
     st_success "✅ Ficheiro carregado com sucesso! (Lidas primeiras 10 linhas para pré-visualização)" ;;;
     full_data_info <- preview_panel uploaded_file delimiter data_preview ;;
     emit (StHeader "📋 Configuração das Colunas") ;;;
     info <- load full_data_info ;;
     check_columns (columns info) ;;;
     sel <- select_columns w (columns info) ;;
     process_on_button w delimiter (fst (fst sel)) (snd (fst sel)) (snd sel)
                       params)
    any_Exception
    (report_read_error delimiter).

(** [main] (lines 97-397). *)
Definition main (w : widgets) : M unit :=
  emit (StSetPageConfig "Analisador de Cromatogramas") ;;;
  emit (StTitle "📊 Analisador de Cromatogramas") ;;;
  emit (StMarkdown "---") ;;;
  params <- sidebar w ;;
  emit (StHeader "📁 Carregar Ficheiro") ;;;
  emit (StWidget "Escolha um ficheiro CSV ou DAT" []) ;;;
  match file_uploader w with
  | Some uploaded_file => with_uploaded_file w uploaded_file params
  | None =>
      st_info "👆 Por favor, carregue um ficheiro CSV ou DAT para começar a análise." ;;;
      emit (StHeader "📝 Formato Esperado do Ficheiro") ;;;
      (* the text of the format description is abridged *)
      emit (StMarkdown "O ficheiro deve conter pelo menos duas colunas com dados numéricos")
  end.

End Main.

(** ** The script as a whole *)

(** The import of the hplc package (lines 10-19): it sets the flag. *)
Definition import_hplc `{Numeric} (installed : bool) : M bool :=
  if installed then ret true
  else
    st_error "⚠️ Biblioteca HPLC não encontrada. Por favor instale: pip install hplc" ;;;
    st_info "⚠️ Algumas funcionalidades (detecção e análise de picos) não estarão disponíveis sem a biblioteca HPLC." ;;;
    ret false.

(** The [def] statement of the adapter (line 52).  Its return annotation
    names [Chromatogram], which a failed import leaves unbound: an
    interpreter that evaluates annotations when the function is defined
    (Python before 3.14) raises [NameError] there; one that evaluates them on
    demand does not. *)
Definition def_process_chromatogram_hplc `{Numeric}
    (eager_annotations installed : bool) : M unit :=
  if eager_annotations && negb installed
  then raise (Exc (OtherError "NameError") "name 'Chromatogram' is not defined")
  else ret tt.

(** The module: the import, the definitions, then [main] (line 400). *)
Definition script `{Numeric} `{!Pandas} `{!Hplc}
    (eager_annotations installed : bool) (w : widgets) : M unit :=
  HPLC_LIB_AVAILABLE <- import_hplc installed ;;
  def_process_chromatogram_hplc eager_annotations installed ;;;
  main HPLC_LIB_AVAILABLE w.

(** ** Stand-ins for the collaborators

    Small executable instances of the three interfaces, to run the script on
    concrete files: rational numbers for the cells, a reader that decodes
    strictly (UTF-8 or Latin-1) and splits lines and fields, and two hplc
    packages, one whose fit finds the highest point and one whose fit fails. *)
Module Sample.

#[local] Instance rationals : Numeric := {|
  num := Q;
  truediv x k := Qred (x / inject_Z k);
  num_of_Q q := q;
|}.

(** *** Decoding *)

Definition continuation (b : N) : bool := ((128 <=? b) && (b <=? 191))%N.

Definition between (lo hi b : N) : bool := ((lo <=? b) && (b <=? hi))%N.

(** Well-formed UTF-8: no overlong forms, no surrogates, nothing above
    U+10FFFF. *)
Fixpoint utf8_valid (bs : list N) : bool :=
  match bs with
  | [] => true
  | b0 :: r0 =>
      if (b0 <? 128)%N then utf8_valid r0
      else
        match r0 with
        | [] => false
        | b1 :: r1 =>
            if between 194 223 b0 then continuation b1 && utf8_valid r1
            else
              match r1 with
              | [] => false
              | b2 :: r2 =>
                  if between 224 239 b0 then
                    (if (b0 =? 224)%N then between 160 191 b1
                     else if (b0 =? 237)%N then between 128 159 b1
                     else continuation b1)
                    && continuation b2 && utf8_valid r2
                  else
                    match r2 with
                    | [] => false
                    | b3 :: r3 =>
                        between 240 244 b0
                        && (if (b0 =? 240)%N then between 144 191 b1
                            else if (b0 =? 244)%N then between 128 143 b1
                            else continuation b1)
                        && continuation b2 && continuation b3 && utf8_valid r3
                    end
              end
        end
  end.

(** Strings hold text as its UTF-8 bytes, as the literals of the script do. *)
Definition text_of_bytes (bs : list byte) : string :=
  string_of_list_ascii (map ascii_of_byte bs).

Definition bytes_of_text (s : string) : list byte :=
  map byte_of_ascii (list_ascii_of_string s).

(** The character of Latin-1 code [n], as UTF-8. *)
Definition latin1_char (b : byte) : list ascii :=
  let n := Byte.to_N b in
  if (n <? 128)%N then [ascii_of_N n]
  else [ascii_of_N (192 + n / 64); ascii_of_N (128 + n mod 64)].

Definition decode (enc : encoding) (bs : list byte) : option string :=
  match enc with
  | utf_8 =>
      if utf8_valid (map Byte.to_N bs) then Some (text_of_bytes bs) else None
  | latin1 => Some (string_of_list_ascii (concat (map latin1_char bs)))
  end.

(** *** Lines, fields, numbers *)

Fixpoint split_on (sep : ascii) (s : string) : list string :=
  match s with
  | EmptyString => [EmptyString]
  | String c rest =>
      if Ascii.eqb c sep then EmptyString :: split_on sep rest
      else
        match split_on sep rest with
        | [] => [String c EmptyString]
        | w :: ws => String c w :: ws
        end
  end.

Definition lines (s : string) : list string :=
  filter (λ l, l ≠ EmptyString) (split_on "010"%char s).

(** The value of a string of decimal digits, and whether it is one. *)
Fixpoint digits (s : string) (acc : Z) : option Z :=
  match s with
  | EmptyString => Some acc
  | String c rest =>
      let n := N_of_ascii c in
      if between 48 57 n then digits rest (10 * acc + Z.of_N (n - 48))%Z
      else None
  end.

Definition unsigned (s : string) : option Q :=
  match split_on "."%char s with
  | [ip] =>
      if String.eqb ip "" then None
      else (λ i, inject_Z i) <$> digits ip 0
  | [ip; fp] =>
      if String.eqb ip "" && String.eqb fp "" then None
      else
        i ← digits ip 0;
        f ← digits fp 0;
        Some (Qred (Qmake (i * 10 ^ Z.of_nat (String.length fp) + f)
                          (Z.to_pos (10 ^ Z.of_nat (String.length fp)))))
  | _ => None
  end.

Definition number (s : string) : option Q :=
  match s with
  | String "-"%char rest => Qopp <$> unsigned rest
  | _ => unsigned s
  end.

(** The type of a column is inferred from the rows that are read, as
    [pd.read_csv] does: numbers when every field reads as a number, text
    otherwise. *)
Definition infer (fields : list string) : Series :=
  match mapM number fields with
  | Some xs => CNum <$> xs
  | None => CStr <$> fields
  end.

Definition separator (delimiter : option string) : ascii :=
  match delimiter with
  | Some (String c _) => c
  | _ => ","%char
  end.

(** The frame of a header line and the lines after it. *)
Definition frame_of (sep : ascii) (header : string) (rows : list string)
    : DataFrame :=
  let table := split_on sep <$> rows in
  imap (λ i label, (label, infer ((λ row, default "" (row !! i)) <$> table)))
       (split_on sep header).

Definition sample_read_csv (bs : list byte) (delimiter : option string)
    (nrows : option nat) (enc : encoding) : result DataFrame * nat :=
  match decode enc bs with
  | None =>
      (Raises (Exc UnicodeDecodeError "'utf-8' codec can't decode bytes"),
       length bs)
  | Some text =>
      match lines text with
      | [] =>
          (Raises (Exc (OtherError "EmptyDataError")
                       "No columns to parse from file"), length bs)
      | header :: rows =>
          (Returns (frame_of (separator delimiter) header
                      (match nrows with Some n => take n rows | None => rows end)),
           length bs)
      end
  end.

(** *** Statistics *)

Definition numbers (s : Series) : option (list Q) :=
  mapM (λ c, match c with CNum x => Some x | CStr _ => None end) s.

Definition greater (x y : Q) : Q := if Qle_bool x y then y else x.
Definition smaller (x y : Q) : Q := if Qle_bool x y then x else y.

Definition statistic_of (stat : statistic) (xs : list Q) : option Q :=
  match stat, xs with
  | Sum, _ => Some (foldr Qplus 0%Q xs)
  | _, [] => None
  | Mean, _ => Some (foldr Qplus 0%Q xs / inject_Z (Z.of_nat (length xs)))%Q
  | Max, x :: rest => Some (foldr greater x rest)
  | Min, x :: rest => Some (foldr smaller x rest)
  end.

(** Three decimals, cut off, of a rational that is not negative. *)
Definition three_decimals (q : Q) : string :=
  let z := (Qnum q * 1000 / Zpos (Qden q))%Z in
  let frac := pretty (z mod 1000)%Z in
  pretty (z / 1000)%Z +:+ "."
  +:+ (match String.length frac with 1 => "00" | 2 => "0" | _ => "" end)
  +:+ frac.

Definition sample_stat_3f (stat : statistic) (s : Series) : result string :=
  match numbers s with
  | None => Raises (Exc TypeError "could not convert string to float")
  | Some xs =>
      match statistic_of stat xs with
      | Some q => Returns (three_decimals q)
      | None => Returns "nan"
      end
  end.

Definition sample_dtype (s : Series) : string :=
  match numbers s with Some _ => "float64" | None => "object" end.

(** [describe] keeps the count of each numeric column. *)
Definition sample_describe (df : DataFrame) : result DataFrame :=
  Returns (omap (λ c, match numbers (snd c) with
                      | Some xs => Some (fst c, [CNum (inject_Z (Z.of_nat (length xs)))])
                      | None => None
                      end) df).

(** [to_csv] writes the header line. *)
Fixpoint join (sep : string) (l : list string) : string :=
  match l with
  | [] => ""
  | [x] => x
  | x :: rest => x +:+ sep +:+ join sep rest
  end.

Definition sample_to_csv (df : DataFrame) : string :=
  join "," (columns df) +:+ String "010"%char "".

#[local] Instance reader : Pandas := {|
  read_csv := sample_read_csv;
  describe := sample_describe;
  to_csv := sample_to_csv;
  dtype := sample_dtype;
  stat_3f := sample_stat_3f;
|}.

(** *** Two hplc packages *)

(** The highest point of a signal, with its time. *)
Fixpoint highest (ts ys : list Q) : option (Q * Q) :=
  match ts, ys with
  | t :: ts', y :: ys' =>
      match highest ts' ys' with
      | Some (t', y') => if Qle_bool y' y then Some (t, y) else Some (t', y')
      | None => Some (t, y)
      end
  | _, _ => None
  end.

Definition highest_point (c : DataFrame * string * string) : DataFrame :=
  match c with
  | (df, time_col, signal_col) =>
      match column time_col df ≫= numbers, column signal_col df ≫= numbers with
      | Some ts, Some ys =>
          match highest ts ys with
          | Some (t, y) =>
              [("rt", [CNum t]); ("height", [CNum y]); ("area", [CNum y])]
          | None => DataFrame_new
          end
      | _, _ => DataFrame_new
      end
  end.

#[local] Instance peak_finder : Hplc := {|
  Chromatogram := DataFrame * string * string;
  Chromatogram_init df time_col signal_col := Returns (df, time_col, signal_col);
  fit_peaks c _ _ _ _ := Returns (c, highest_point c);
|}.

#[local] Instance failing_fit : Hplc := {|
  Chromatogram := DataFrame * string * string;
  Chromatogram_init df time_col signal_col := Returns (df, time_col, signal_col);
  fit_peaks c _ _ _ _ :=
    Raises (Exc (OtherError "RuntimeError") "Optimal parameters not found");
|}.

(** *** Files and runs *)

(** The state at the start of a run. *)
Definition start : state := State [] [] 0 [].

(** The state with one frame object and nothing else. *)
Definition holding (df : DataFrame) : state := State [df] [] 0 [].

Definition untouched : widgets := {|
  correct_baseline_checkbox := false;
  peak_width_slider := 1 # 10;
  buffer_slider := 100;
  prominence_slider := 2 # 100;
  file_uploader := None;
  delimiter_selector := None;
  time_column_selector := None;
  signal_column_selector := None;
  time_unit_selector := None;
  process_button := false;
|}.

(** The upload of [text] under the name [dados.csv], the button pressed or
    not, the time unit at position [unit] of its select box. *)
Definition upload (bs : list byte) (unit : nat) (pressed : bool) : widgets := {|
  correct_baseline_checkbox := false;
  peak_width_slider := 1 # 10;
  buffer_slider := 100;
  prominence_slider := 2 # 100;
  file_uploader := Some {| name := "dados.csv"; getvalue := bs |};
  delimiter_selector := None;
  time_column_selector := None;
  signal_column_selector := None;
  time_unit_selector := Some unit;
  process_button := pressed;
|}.

(** The file of end-to-end scenario 1. *)
Definition scenario1 : list byte :=
  bytes_of_text "Tempo,Sinal
0.0,0.0
1.0,60.0
2.0,0.0
".

(** A file whose fields are separated by semicolons. *)
Definition semicolons : list byte :=
  bytes_of_text "Tempo;Sinal
0.0;0.0
1.0;60.0
".

(** A Latin-1 file: the label [área] with its first letter as the byte E1. *)
Definition latin1_file : list byte :=
  [xe1] ++ bytes_of_text "rea,Sinal
1,2
".

(** A file whose first ten rows are numbers and whose eleventh row is not. *)
Definition late_text : list byte :=
  bytes_of_text "Tempo,Sinal
1,10
2,20
3,30
4,40
5,50
6,60
7,70
8,80
9,90
10,100
fim,0
".

(** A frame with a time column and no signal column. *)
Definition time_only : DataFrame :=
  [("Tempo", [CNum 0%Q; CNum 60%Q; CNum 120%Q])].

(** A frame with both columns. *)
Definition two_columns : DataFrame :=
  [("Tempo", [CNum 0%Q; CNum 60%Q; CNum 120%Q]);
   ("Sinal", [CNum 0%Q; CNum 5%Q; CNum 0%Q])].

(** The frames that the three files above are read as. *)
Definition scenario1_frame : DataFrame :=
  [("Tempo", [CNum 0%Q; CNum 1%Q; CNum 2%Q]);
   ("Sinal", [CNum 0%Q; CNum 60%Q; CNum 0%Q])].


Definition latin1_frame : DataFrame :=
  [("área", [CNum 1%Q]); ("Sinal", [CNum 2%Q])].

(** What [late_text] is read as: with a limit of ten rows, and whole. *)
Definition late_text_preview : DataFrame :=
  [("Tempo", map CNum [1; 2; 3; 4; 5; 6; 7; 8; 9; 10]%Q);
   ("Sinal", map CNum [10; 20; 30; 40; 50; 60; 70; 80; 90; 100]%Q)].

Definition late_text_frame : DataFrame :=
  [("Tempo", map CStr ["1"; "2"; "3"; "4"; "5"; "6"; "7"; "8"; "9"; "10";
                       "fim"]);
   ("Sinal", map CNum [10; 20; 30; 40; 50; 60; 70; 80; 90; 100; 0]%Q)].

(** The frame of scenario 1 with its times in minutes. *)
Definition scenario1_minutes : DataFrame :=
  [("Tempo", [CNum 0%Q; CNum (1 # 60)%Q; CNum (1 # 30)%Q]);
   ("Sinal", [CNum 0%Q; CNum 60%Q; CNum 0%Q])].

(** The parameters the sidebar gives while nothing is touched. *)
Definition default_params : dict :=
  [("correct_baseline", PBool false);
   ("approx_peak_width", PFloat (1 # 10)%Q);
   ("buffer", PInt 100);
   ("prominence", PFloat (2 # 100)%Q)].

(** A reader that finds no column in any file. *)
#[local] Instance blank_reader : Pandas := {|
  read_csv bs _ _ _ := (Returns DataFrame_new, length bs);
  describe := sample_describe;
  to_csv := sample_to_csv;
  dtype := sample_dtype;
  stat_3f := sample_stat_3f;
|}.

End Sample.

(** * The vocabulary of the properties

    Names for what the properties below speak of: the states a run ends in,
    what a read comes to, and what a run may show. *)

Local Open Scope py_scope.

Section Vocabulary.
Context `{Numeric} `{!Pandas} `{!Hplc}.

(** The state after a run of the normaliser that returned: one more frame
    object and one more message. *)
Definition converted (σ : state) (df : DataFrame) (ev : event) : state :=
  State (frames σ ++ [df]) (file_buffer σ) (file_pos σ) (trace σ ++ [ev]).

(** The state after the adapter gave up: one more frame object, the empty
    table, and the messages [evs]. *)
Definition gave_up (σ : state) (evs : list event) : state :=
  State (frames σ ++ [DataFrame_new]) (file_buffer σ) (file_pos σ)
        (trace σ ++ evs).

(** The four arguments of [fit_peaks], looked up in [params] in the order of
    the call; the first key that is missing raises [KeyError]. *)
Definition fit_arguments (params : dict)
    : result (pyval * pyval * pyval * pyval) :=
  match dict_get params "correct_baseline" with
  | None => Raises (Exc KeyError "'correct_baseline'")
  | Some v1 =>
      match dict_get params "approx_peak_width" with
      | None => Raises (Exc KeyError "'approx_peak_width'")
      | Some v2 =>
          match dict_get params "buffer" with
          | None => Raises (Exc KeyError "'buffer'")
          | Some v3 =>
              match dict_get params "prominence" with
              | None => Raises (Exc KeyError "'prominence'")
              | Some v4 => Returns (v1, v2, v3, v4)
              end
          end
      end
  end.

(** What the handler of the adapter shows for the exception [e]. *)
Definition reported (e : exception) : list event :=
  [StError ("❌ Erro ao processar com biblioteca HPLC: " +:+ exc_str e);
   StException e].

(** The three reads of the script are one ladder, with or without a limit of
    rows. *)
Definition ladder (delimiter : option string) (nrows : option nat) : M loc :=
  seek 0 ;;;
  try_except (pd_read_csv delimiter nrows utf_8)
    is_UnicodeDecodeError
    (λ _, seek 0 ;;; pd_read_csv delimiter nrows latin1).

(** What the ladder comes to on the bytes [bs]: the frame or the exception,
    the calls made, and where the buffer is left. *)
Definition fallback (bs : list byte) (d : option string) (n : option nat)
    : result DataFrame * list event * nat :=
  let first := read_csv bs d n utf_8 in
  let second := read_csv bs d n latin1 in
  match fst first with
  | Returns df => (Returns df, [PdReadCsv d n utf_8 0], snd first)
  | Raises e =>
      if is_UnicodeDecodeError e
      then (fst second, [PdReadCsv d n utf_8 0; PdReadCsv d n latin1 0],
            snd second)
      else (Raises e, [PdReadCsv d n utf_8 0], snd first)
  end.

(** The state after a read that came to [r]. *)
Definition after_read (σ : state) (r : result DataFrame * list event * nat)
    : outcome loc * state :=
  match r with
  | (Returns df, evs, pos) =>
      (Ok (length (frames σ)),
       State (frames σ ++ [df]) (file_buffer σ) pos (trace σ ++ evs))
  | (Raises e, evs, pos) =>
      (Raise e, State (frames σ) (file_buffer σ) pos (trace σ ++ evs))
  end.

(** The fallback policy of a read [f] with the row limit [n]: the first call
    is UTF-8 from the start of the buffer; when it returns, that is the
    result; when it raises [UnicodeDecodeError], the buffer is read again
    from its start, with the same delimiter and limit, as Latin-1, and the
    result of that call is the result of the read: a frame the second call
    returns is returned, in a new frame object. *)
Definition reads_with_fallback (f : option string → M loc) (n : option nat)
    : Prop :=
  ∀ (σ : state) (d : option string),
    let bs := file_buffer σ in
    (∀ df, fst (read_csv bs d n utf_8) = Returns df →
       ∃ l σ', f d σ = (Ok l, σ') ∧ frame_at σ' l = df
         ∧ trace σ' = trace σ ++ [PdReadCsv d n utf_8 0])
    ∧ (∀ e, fst (read_csv bs d n utf_8) = Raises e →
         is_UnicodeDecodeError e = false →
         ∃ σ', f d σ = (Raise e, σ')
           ∧ trace σ' = trace σ ++ [PdReadCsv d n utf_8 0])
    ∧ (∀ e, fst (read_csv bs d n utf_8) = Raises e →
         is_UnicodeDecodeError e = true →
         trace (snd (f d σ))
         = trace σ ++ [PdReadCsv d n utf_8 0; PdReadCsv d n latin1 0]
         ∧ (∀ df, fst (read_csv bs d n latin1) = Returns df →
              ∃ l σ', f d σ = (Ok l, σ') ∧ frame_at σ' l = df)
         ∧ (∀ e', fst (read_csv bs d n latin1) = Raises e' →
              ∃ σ', f d σ = (Raise e', σ'))).

(** The table a read came to, or how it failed. *)
Definition read_frame (r : outcome loc * state) : outcome DataFrame :=
  match fst r with
  | Ok l => Ok (frame_at (snd r) l)
  | Raise e => Raise e
  | Halt => Halt
  end.

(** A read can be repeated: its result depends on the content of the buffer
    only, not on where earlier reads left the buffer or on anything else in
    the state; and it changes neither the content of the buffer nor any frame
    object that exists. *)
Definition repeatable (f : M loc) : Prop :=
  (∀ σ1 σ2, file_buffer σ1 = file_buffer σ2 →
     read_frame (f σ1) = read_frame (f σ2))
  ∧ (∀ σ, file_buffer (snd (f σ)) = file_buffer σ
       ∧ ∀ l df, frames σ !! l = Some df → frames (snd (f σ)) !! l = Some df).

(** [only_shows P halts m]: a run of [m] adds events to the trace and takes
    none away, every event it adds satisfies [P], and it ends with a halt
    only if [halts] allows one. *)
Definition only_shows {A} (P : event → Prop) (halts : bool) (m : M A) : Prop :=
  ∀ σ, ∃ evs, trace (snd (m σ)) = trace σ ++ evs ∧ Forall P evs
              ∧ (halts = false → fst (m σ) ≠ Halt).

(** An event that is no read, or is a read made with the delimiter [d]. *)
Definition reads_use (d : option string) (ev : event) : Prop :=
  match ev with
  | PdReadCsv d' _ _ _ => d' = d
  | _ => True
  end.

(** The lines of the information panel. *)
Definition information (uploaded_file : UploadedFile) (info : DataFrame)
    : list event :=
  [StWrite "**Informações do dataset:**";
   StWrite ("- Nome do ficheiro: " +:+ name uploaded_file);
   StWrite ("- Tamanho do ficheiro: "
            +:+ pretty (length (getvalue uploaded_file)) +:+ " bytes");
   StWrite ("- Número de linhas (estimado): " +:+ pretty (len info));
   StWrite ("- Número de colunas: " +:+ pretty (length (columns info)));
   StWrite ("- Colunas: " +:+ py_repr_list (columns info));
   StWrite "**Estatísticas básicas (primeiras 10 linhas):**"].

(** What is shown for the statistics of the preview. *)
Definition statistics (preview : DataFrame) : event :=
  match describe preview with
  | Returns d => StWriteFrame d
  | Raises e =>
      StWarning ("Não foi possível gerar estatísticas básicas: " +:+ exc_str e)
  end.


(** The delimiter the select box gives. *)
Definition chosen_delimiter (w : widgets) : option string :=
  delimiter_options !! default 0 (delimiter_selector w).

(** What the branch of an uploaded file has shown when it comes to the column
    check, the preview having been read as [p] and the whole file as [info]. *)
Definition before_check (uploaded_file : UploadedFile) (p info : DataFrame)
    (evs1 evs2 : list event) : list event :=
  [StWidget "Delimitador" delimiter_options] ++ evs1
  ++ [StSuccess "✅ Ficheiro carregado com sucesso! (Lidas primeiras 10 linhas para pré-visualização)";
      StDataframe p]
  ++ evs2 ++ information uploaded_file info
  ++ [statistics p; StHeader "📋 Configuração das Colunas"].

End Vocabulary.

(** ** Vocabulary of the outcomes *)

Section Outcomes.
Context `{Numeric}.

(** [never_raises m]: no run of [m] ends with an exception. *)
Definition never_raises {A} (m : M A) : Prop :=
  ∀ σ e, fst (m σ) ≠ Raise e.

(** [halts_after ev m]: a run of [m] that ends with a halt has shown [ev]
    last. *)
Definition halts_after {A} (ev : event) (m : M A) : Prop :=
  ∀ σ, fst (m σ) = Halt → last (trace (snd (m σ))) = Some ev.

(** [keeps m]: a run of [m] leaves the content of the buffer and every frame
    object that exists as they were. *)
Definition keeps {A} (m : M A) : Prop :=
  ∀ σ, file_buffer (snd (m σ)) = file_buffer σ
       ∧ ∀ l df, frames σ !! l = Some df → frames (snd (m σ)) !! l = Some df.

(** A column all of whose cells are numbers. *)
Definition numeric (s : Series) : bool :=
  forallb (λ c, match c with CNum _ => true | CStr _ => false end) s.

(** The four keys of [params], in the order in which the call of [fit_peaks]
    looks them up (lines 83-86). *)
Definition fit_keys : list string :=
  ["correct_baseline"; "approx_peak_width"; "buffer"; "prominence"].

(** An event that is a call of the hplc package. *)
Definition hplc_call (ev : event) : Prop :=
  match ev with
  | HplcChromatogram _ _ _ | HplcFitPeaks => True
  | _ => False
  end.

(** An event that is a call of [pd.read_csv]. *)
Definition read_call (ev : event) : Prop :=
  match ev with
  | PdReadCsv _ _ _ _ => True
  | _ => False
  end.

(** An event that is a figure. *)
Definition figure (ev : event) : Prop :=
  match ev with
  | StPyplot _ => True
  | _ => False
  end.

(** [shows_some Q m]: a run of [m] that ends normally has added, to the
    trace it started from, an event that satisfies [Q]. *)
Definition shows_some {A} (Q : event → Prop) (m : M A) : Prop :=
  ∀ σ a σ', m σ = (Ok a, σ') →
    ∃ evs, trace σ' = trace σ ++ evs ∧ Exists Q evs.

(** The hint that the handler of a failed read shows (line 369). *)
Definition read_error_hint : event :=
  StInfo "💡 Tente ajustar o delimitador ou verificar se o ficheiro é realmente CSV/DAT compatível.".

(** What the button's handler shows for the exception [e] (lines 363-364). *)
Definition processing_error (e : exception) : list event :=
  [StError ("❌ Ocorreu um erro durante o processamento dos dados: "
            +:+ exc_str e);
   StException e].

End Outcomes.

(** ** Stand-ins that fail

    A package whose constructor fails; a reader that refuses a file with a
    row of more fields than the header, among the rows it is asked for, and
    whose [describe] refuses a frame without columns; and a file whose
    twelfth line has such a row. *)
Module Faults.

#[local] Existing Instance Sample.rationals.

#[local] Instance failing_constructor : Hplc := {|
  Chromatogram := DataFrame * string * string;
  Chromatogram_init df time_col signal_col :=
    Raises (Exc (OtherError "ValueError") "chromatogram could not be built");
  fit_peaks c _ _ _ _ := Returns (c, DataFrame_new);
|}.

Definition ragged (sep : ascii) (header : string) (rows : list string) : bool :=
  existsb (λ row, Nat.ltb (length (Sample.split_on sep header))
                          (length (Sample.split_on sep row))) rows.

Definition strict_read_csv (bs : list byte) (delimiter : option string)
    (nrows : option nat) (enc : encoding) : result DataFrame * nat :=
  match Sample.decode enc bs with
  | None =>
      (Raises (Exc UnicodeDecodeError "'utf-8' codec can't decode bytes"),
       length bs)
  | Some text =>
      match Sample.lines text with
      | [] =>
          (Raises (Exc (OtherError "EmptyDataError")
                       "No columns to parse from file"), length bs)
      | header :: rows =>
          let asked := match nrows with Some n => take n rows | None => rows end in
          if ragged (Sample.separator delimiter) header asked
          then (Raises (Exc (OtherError "ParserError")
                          "Error tokenizing data"), length bs)
          else (Returns (Sample.frame_of (Sample.separator delimiter) header
                           asked), length bs)
      end
  end.

Definition strict_describe (df : DataFrame) : result DataFrame :=
  match df with
  | [] =>
      Raises (Exc (OtherError "ValueError")
                  "Cannot describe a DataFrame without columns")
  | _ :: _ => Sample.sample_describe df
  end.

#[local] Instance strict_reader : Pandas := {|
  read_csv := strict_read_csv;
  describe := strict_describe;
  to_csv := Sample.sample_to_csv;
  dtype := Sample.sample_dtype;
  stat_3f := Sample.sample_stat_3f;
|}.

(** Eleven rows of two fields, then a row of three. *)
Definition ragged_file : list byte :=
  Sample.bytes_of_text "Tempo,Sinal
1,10
2,20
3,30
4,40
5,50
6,60
7,70
8,80
9,90
10,100
11,110
12,120,5
".

(** A peak table with one peak, and one without the [area] column. *)
Definition one_peak : DataFrame :=
  [("rt", [CNum 1%Q]); ("height", [CNum 60%Q]); ("area", [CNum 60%Q])].

Definition one_peak_no_area : DataFrame :=
  [("rt", [CNum 1%Q]); ("height", [CNum 60%Q])].

End Faults.

(** * Properties *)

Section FrameFacts.
Context `{Numeric}.

Lemma in_columns_column (c : string) (df : DataFrame) :
  in_columns c df = true ↔ is_Some (column c df).
Proof.
  unfold in_columns, columns.
  induction df as [|[n s] df IH]; simpl.
  - split; [discriminate | intros [? ?]; discriminate].
  - destruct (String.eqb c n); simpl; [split; eauto | exact IH].
Qed.


Lemma column_set_column_other (c d : string) (s : Series) (df : DataFrame) :
  d ≠ c → column d (set_column c s df) = column d df.
Proof.
  intros Hne. unfold set_column. destruct (in_columns c df).
  - induction df as [|[n t] df IH]; simpl; [done|].
    destruct (String.eqb_spec c n) as [->|Hcn]; simpl.
    + destruct (String.eqb_spec d n); [congruence | apply IH].
    + destruct (String.eqb d n); [done | apply IH].
  - induction df as [|[n t] df IH]; simpl.
    + destruct (String.eqb_spec d c); [congruence | done].
    + destruct (String.eqb d n); [done | apply IH].
Qed.

Lemma columns_set_column (c : string) (s : Series) (df : DataFrame) :
  in_columns c df = true → columns (set_column c s df) = columns df.
Proof.
  intros Hin. unfold set_column. rewrite Hin. unfold columns.
  rewrite map_map. apply map_ext. intros [n t]; simpl.
  by destruct (String.eqb c n).
Qed.


Lemma frame_at_new (fs : list DataFrame) (df : DataFrame) b p t :
  frame_at (State (fs ++ [df]) b p t) (length fs) = df.
Proof. unfold frame_at; simpl. by rewrite list_lookup_middle. Qed.


Lemma insert_new (fs : list DataFrame) (df df' : DataFrame) :
  <[length fs := df']> (fs ++ [df]) = fs ++ [df'].
Proof.
  replace (length fs) with (length fs + 0) by lia.
  by rewrite insert_app_r.
Qed.

End FrameFacts.

Section Normalizer.
Context `{Numeric}.





End Normalizer.

Section NormalizerClaims.
Context `{Numeric}.

(** One converting branch of the normaliser, run on any frame: the copy is
    made first; the column is replaced only when it exists and holds numbers. *)
Lemma convert_branch (σ : state) (data : loc) (time_col time_unit : string) :
  time_unit = "Segundos" ∨ time_unit = "Milisegundos" →
  ∃ (k : Z) (ev : event),
    convert_time_to_minutes data time_col time_unit σ
    = match column time_col (frame_at σ data) with
      | None =>
          (Raise (Exc KeyError ("'" +:+ time_col +:+ "'")),
           State (frames σ ++ [frame_at σ data]) (file_buffer σ) (file_pos σ)
                 (trace σ))
      | Some s =>
          match Series_apply (cell_truediv k) s with
          | Raises e =>
              (Raise e,
               State (frames σ ++ [frame_at σ data]) (file_buffer σ)
                     (file_pos σ) (trace σ))
          | Returns s' =>
              (Ok (length (frames σ)),
               converted σ (set_column time_col s' (frame_at σ data)) ev)
          end
      end.
Proof.
  intros [-> | ->]; [exists 60%Z | exists 60000%Z]; eexists;
    unfold convert_time_to_minutes, DataFrame_copy, getitem,
      loc_setitem, bind, load, alloc, store, st_info, emit, ret, raise; simpl;
    rewrite frame_at_new;
    (destruct (column time_col (frame_at σ data)) as [s|]; simpl; [|done]);
    (destruct (Series_apply _ s) as [s'|e]; simpl; [|done]);
    by rewrite insert_new, frame_at_new.
Qed.

(** The normaliser on any unit that is not one of the two converting ones. *)
Lemma convert_pass (σ : state) (data : loc) (time_col time_unit : string) :
  time_unit ≠ "Segundos" → time_unit ≠ "Milisegundos" →
  ∃ ev : event,
    convert_time_to_minutes data time_col time_unit σ
    = (Ok (length (frames σ)), converted σ (frame_at σ data) ev).
Proof.
  intros H1 H2. unfold convert_time_to_minutes.
  apply String.eqb_neq in H1, H2. rewrite H1, H2.
  destruct (String.eqb time_unit "Minutos"); eexists; reflexivity.
Qed.

(** Every run of the normaliser ends in a state with exactly one more frame
    object, which has the labels of the original and agrees with it on every
    column but the time column; it ends with that object or with an
    exception, never with a halt. *)
Lemma convert_shape (σ : state) (data : loc) (time_col time_unit : string) :
  ∃ (df' : DataFrame) (t' : list event),
    snd (convert_time_to_minutes data time_col time_unit σ)
    = State (frames σ ++ [df']) (file_buffer σ) (file_pos σ) t'
    ∧ columns df' = columns (frame_at σ data)
    ∧ (∀ c, c ≠ time_col → column c df' = column c (frame_at σ data))
    ∧ (fst (convert_time_to_minutes data time_col time_unit σ)
       = Ok (length (frames σ))
       ∨ ∃ e, fst (convert_time_to_minutes data time_col time_unit σ) = Raise e).
Proof.
  destruct (String.eqb_spec time_unit "Segundos") as [E1|H1];
    [|destruct (String.eqb_spec time_unit "Milisegundos") as [E2|H2]].
  3: { destruct (convert_pass σ data time_col time_unit H1 H2) as [ev ->].
       eexists _, _; simpl. repeat split; eauto. }
  all: destruct (convert_branch σ data time_col time_unit) as (k & ev & ->);
    [by auto|].
  all: destruct (column time_col (frame_at σ data)) as [s|] eqn:Hcol;
    [destruct (Series_apply (cell_truediv k) s) as [s'|e]|];
    eexists _, _; simpl; (split; [reflexivity|]); repeat split; eauto.
  all: try (apply columns_set_column, in_columns_column; eauto).
  all: intros c Hc; by apply column_set_column_other.
Qed.




End NormalizerClaims.

Section AdapterClaims.
Context `{Numeric} `{!Hplc}.

(** C2 (the code at the failing input): the third option of the time unit
    select box is "Milissegundos"; no option of the box is the label
    "Milisegundos" that the normaliser divides by 60000 for; and with the
    option "Milissegundos" the normaliser returns an unchanged copy and shows
    the warning of the unknown unit. *)
Theorem milliseconds_option_falls_through (σ : state) (data : loc)
    (time_col : string) :
  time_unit_options !! 2 = Some "Milissegundos"
  ∧ (∀ i u, time_unit_options !! i = Some u → u ≠ "Milisegundos")
  ∧ convert_time_to_minutes data time_col "Milissegundos" σ
    = (Ok (length (frames σ)),
       converted σ (frame_at σ data)
         (StWarning "Unidade de tempo desconhecida: Milissegundos. Nenhuma conversão aplicada.")).
Proof.
  split; [reflexivity|]. split; [|reflexivity].
  intros [|[|[|i]]] u Hu; simpl in Hu; try discriminate;
    injection Hu as <-; discriminate.
Qed.

Lemma adapter_unavailable (σ : state) (data : loc) (time_col signal_col : string)
    (params : dict) :
  process_chromatogram_hplc false data time_col signal_col params σ
  = (Ok (None, length (frames σ)),
     gave_up σ [StError "❌ Biblioteca HPLC não está disponível. Não é possível processar picos."]).
Proof. reflexivity. Qed.

Lemma adapter_missing_column (σ : state) (data : loc)
    (time_col signal_col : string) (params : dict) :
  in_columns time_col (frame_at σ data) = false
  ∨ in_columns signal_col (frame_at σ data) = false →
  process_chromatogram_hplc true data time_col signal_col params σ
  = (Ok (None, length (frames σ)),
     gave_up σ [StInfo "🛠️ Processando com biblioteca HPLC...";
                StError ("Colunas '" +:+ time_col +:+ "' ou '" +:+ signal_col
                         +:+ "' não encontradas no DataFrame.")]).
Proof.
  intros Hmiss.
  assert (negb (in_columns time_col (frame_at σ data))
          || negb (in_columns signal_col (frame_at σ data)) = true) as Hif.
  { destruct Hmiss as [-> | ->]; simpl; [done | by rewrite orb_true_r]. }
  unfold process_chromatogram_hplc, try_except, bind, load, st_info, st_error,
    emit, alloc, ret, gave_up; simpl.
  unfold frame_at in *; simpl. rewrite Hif; simpl.
  by rewrite <- app_assoc.
Qed.

(** The adapter when the package is there and both columns exist. *)
Lemma adapter_present (σ : state) (data : loc) (time_col signal_col : string)
    (params : dict) :
  in_columns time_col (frame_at σ data) = true →
  in_columns signal_col (frame_at σ data) = true →
  let df := frame_at σ data in
  let started := [StInfo "🛠️ Processando com biblioteca HPLC...";
                  HplcChromatogram df time_col signal_col] in
  process_chromatogram_hplc true data time_col signal_col params σ
  = match Chromatogram_init df time_col signal_col with
    | Raises e => (Ok (None, length (frames σ)), gave_up σ (started ++ reported e))
    | Returns c0 =>
        match fit_arguments params with
        | Raises e =>
            (Ok (None, length (frames σ)), gave_up σ (started ++ reported e))
        | Returns (v1, v2, v3, v4) =>
            match fit_peaks c0 v1 v2 v3 v4 with
            | Raises e =>
                (Ok (None, length (frames σ)),
                 gave_up σ (started ++ [HplcFitPeaks] ++ reported e))
            | Returns (c1, peaks) =>
                (Ok (Some c1, length (frames σ)),
                 State (frames σ ++ [peaks]) (file_buffer σ) (file_pos σ)
                       (trace σ ++ started
                        ++ [HplcFitPeaks;
                            StSuccess "✅ Análise de picos concluída."]))
            end
        end
    end.
Proof.
  intros Ht Hs df started. subst df started.
  unfold process_chromatogram_hplc, new_Chromatogram, call_fit_peaks,
    fit_arguments, dict_getitem, try_except, bind, load, call, st_info,
    st_error, st_success, st_exception, emit, alloc, ret, raise, gave_up,
    reported; simpl.
  unfold frame_at in *; simpl. rewrite Ht, Hs; simpl.
  destruct (Chromatogram_init _ time_col signal_col) as [c0|e]; simpl.
  2: { by rewrite <- !app_assoc. }
  destruct (dict_get params "correct_baseline") as [v1|]; simpl;
    [|by rewrite <- !app_assoc].
  destruct (dict_get params "approx_peak_width") as [v2|]; simpl;
    [|by rewrite <- !app_assoc].
  destruct (dict_get params "buffer") as [v3|]; simpl;
    [|by rewrite <- !app_assoc].
  destruct (dict_get params "prominence") as [v4|]; simpl;
    [|by rewrite <- !app_assoc].
  destruct (fit_peaks c0 v1 v2 v3 v4) as [[c1 peaks]|e]; simpl;
    by rewrite <- !app_assoc.
Qed.

End AdapterClaims.

Section AdapterTheorems.
Context `{Numeric} `{!Pandas} `{!Hplc}.

(** The panel with the peaks, given an empty table while the package is
    there: it says that no peak was found. *)
Lemma peaks_panel_no_peaks (σ : state) (dados_picos : loc) :
  empty (frame_at σ dados_picos) = true →
  peaks_panel true dados_picos σ
  = (Ok tt,
     State (frames σ) (file_buffer σ) (file_pos σ)
       (trace σ ++ [StSubheader "Informações dos Picos";
                    StWarning "Nenhum pico foi detectado com os parâmetros atuais."])).
Proof.
  intros Hempty.
  unfold peaks_panel, bind, load, st_warning, emit; simpl.
  unfold frame_at in *; simpl. rewrite Hempty; simpl.
  by rewrite <- app_assoc.
Qed.

(** C3: with a time or signal column that the frame does not have, the
    adapter returns no chromatogram and the empty peak table, it returns
    (nothing is raised past it), an error is shown, and the hplc package is
    never called, so no chromatogram object is built. *)
Theorem process_chromatogram_hplc_missing_column (HPLC_LIB_AVAILABLE : bool)
    (σ : state) (data_df : loc) (time_col signal_col : string) (params : dict) :
  in_columns time_col (frame_at σ data_df) = false
  ∨ in_columns signal_col (frame_at σ data_df) = false →
  ∃ (dados_picos : loc) (σ' : state) (evs : list event) (msg : string),
    process_chromatogram_hplc HPLC_LIB_AVAILABLE data_df time_col signal_col
      params σ
    = (Ok (None, dados_picos), σ')
    ∧ frame_at σ' dados_picos = DataFrame_new
    ∧ empty (frame_at σ' dados_picos) = true
    ∧ trace σ' = trace σ ++ evs
    ∧ StError msg ∈ evs
    ∧ (HPLC_LIB_AVAILABLE = true →
       msg = "Colunas '" +:+ time_col +:+ "' ou '" +:+ signal_col
             +:+ "' não encontradas no DataFrame.")
    ∧ (∀ df a b, HplcChromatogram df a b ∉ evs)
    ∧ HplcFitPeaks ∉ evs.
Proof.
  intros Hmiss. destruct HPLC_LIB_AVAILABLE.
  - eexists _, _, _, _.
    split; [by apply adapter_missing_column|].
    unfold gave_up. rewrite frame_at_new.
    repeat split; try done.
    + apply list_elem_of_In. simpl. right; left; reflexivity.
    + intros df a b Hin. apply list_elem_of_In in Hin. simpl in Hin.
      destruct Hin as [?|[?|[]]]; discriminate.
    + intros Hin. apply list_elem_of_In in Hin. simpl in Hin.
      destruct Hin as [?|[?|[]]]; discriminate.
  - eexists _, _, _,
      "❌ Biblioteca HPLC não está disponível. Não é possível processar picos.".
    split; [apply adapter_unavailable|].
    unfold gave_up. rewrite frame_at_new.
    repeat split; try done.
    + apply list_elem_of_In. simpl. left; reflexivity.
    + intros df a b Hin. apply list_elem_of_In in Hin. simpl in Hin.
      destruct Hin as [?|[]]; discriminate.
    + intros Hin. apply list_elem_of_In in Hin. simpl in Hin.
      destruct Hin as [?|[]]; discriminate.
Qed.

(** C4: when the package is there, both columns exist, the chromatogram is
    built and [fit_peaks] raises the exception [e], the adapter catches it:
    it returns (the exception goes no further), with no chromatogram and the
    empty peak table; it shows an error with the message of [e]; and the
    panel, given that table, then says that no peak was found. *)
Theorem process_chromatogram_hplc_fit_raises (σ : state) (data_df : loc)
    (time_col signal_col : string) (params : dict) (c0 : Chromatogram)
    (v1 v2 v3 v4 : pyval) (e : exception) :
  in_columns time_col (frame_at σ data_df) = true →
  in_columns signal_col (frame_at σ data_df) = true →
  Chromatogram_init (frame_at σ data_df) time_col signal_col = Returns c0 →
  dict_get params "correct_baseline" = Some v1 →
  dict_get params "approx_peak_width" = Some v2 →
  dict_get params "buffer" = Some v3 →
  dict_get params "prominence" = Some v4 →
  fit_peaks c0 v1 v2 v3 v4 = Raises e →
  ∃ (dados_picos : loc) (σ' : state),
    process_chromatogram_hplc true data_df time_col signal_col params σ
    = (Ok (None, dados_picos), σ')
    ∧ frame_at σ' dados_picos = DataFrame_new
    ∧ empty (frame_at σ' dados_picos) = true
    ∧ trace σ'
      = trace σ
        ++ [StInfo "🛠️ Processando com biblioteca HPLC...";
            HplcChromatogram (frame_at σ data_df) time_col signal_col;
            HplcFitPeaks;
            StError ("❌ Erro ao processar com biblioteca HPLC: " +:+ exc_str e);
            StException e]
    ∧ ∃ σ'', peaks_panel true dados_picos σ' = (Ok tt, σ'')
        ∧ trace σ''
          = trace σ'
            ++ [StSubheader "Informações dos Picos";
                StWarning "Nenhum pico foi detectado com os parâmetros atuais."].
Proof.
  intros Ht Hs Hinit Hcb Hpw Hbuf Hprom Hfit.
  eexists _, _. split.
  { rewrite adapter_present by done. rewrite Hinit.
    unfold fit_arguments. rewrite Hcb, Hpw, Hbuf, Hprom, Hfit. reflexivity. }
  unfold gave_up. rewrite frame_at_new.
  repeat split; try done.
  eexists. split; [apply peaks_panel_no_peaks; by rewrite frame_at_new|done].
Qed.


End AdapterTheorems.

Section Ingestor.
Context `{Numeric} `{!Pandas}.

Lemma read_preview_ladder d : read_preview d = ladder d (Some 10).
Proof. reflexivity. Qed.

Lemma read_full_info_ladder d : read_full_info d = ladder d None.
Proof. reflexivity. Qed.

Lemma read_data_df_ladder d : read_data_df d = ladder d None.
Proof. reflexivity. Qed.

Lemma ladder_run (d : option string) (n : option nat) (σ : state) :
  ladder d n σ = after_read σ (fallback (file_buffer σ) d n).
Proof.
  unfold ladder, fallback, after_read, try_except, bind, seek, pd_read_csv,
    alloc; simpl. rewrite !drop_0.
  destruct (read_csv (file_buffer σ) d n utf_8) as [[df|e] p]; simpl; [done|].
  destruct (is_UnicodeDecodeError e); simpl; [|done].
  rewrite !drop_0.
  destruct (read_csv (file_buffer σ) d n latin1) as [[df|e'] p']; simpl;
    by rewrite <- app_assoc.
Qed.

Lemma ladder_reads_with_fallback (n : option nat) :
  reads_with_fallback (λ d, ladder d n) n.
Proof.
  intros σ d bs. subst bs. rewrite ladder_run. unfold fallback, after_read.
  split; [|split].
  - intros df ->. eexists _, _. split; [reflexivity|].
    by rewrite frame_at_new.
  - intros e -> ->. eauto.
  - intros e -> ->. split; [by destruct (fst (read_csv _ d n latin1))|].
    split.
    + intros df ->. eexists _, _. split; [reflexivity|].
      by rewrite frame_at_new.
    + intros e' ->. eauto.
Qed.

Lemma ladder_frame (d : option string) (n : option nat) (σ : state) :
  read_frame (ladder d n σ)
  = match fst (fst (fallback (file_buffer σ) d n)) with
    | Returns df => Ok df
    | Raises e => Raise e
    end.
Proof.
  rewrite ladder_run. unfold after_read, read_frame.
  destruct (fallback (file_buffer σ) d n) as [[[df|e] evs] pos]; simpl; [|done].
  by rewrite frame_at_new.
Qed.

Lemma ladder_keeps (d : option string) (n : option nat) (σ : state) :
  file_buffer (snd (ladder d n σ)) = file_buffer σ
  ∧ ∀ l df, frames σ !! l = Some df → frames (snd (ladder d n σ)) !! l = Some df.
Proof.
  rewrite ladder_run. unfold after_read.
  destruct (fallback (file_buffer σ) d n) as [[[df|e] evs] pos]; simpl;
    (split; [done|]); [|done].
  intros l df' Hl. rewrite lookup_app_l; [done | by eapply lookup_lt_Some].
Qed.

Lemma ladder_repeatable (d : option string) (n : option nat) :
  repeatable (ladder d n).
Proof.
  split.
  - intros σ1 σ2 Hbuf. by rewrite !ladder_frame, Hbuf.
  - intros σ. apply ladder_keeps.
Qed.

(** C9, as amended: each of the three reads can be repeated (it starts from
    the start of the buffer, so its result is a function of the bytes, the
    delimiter and the row limit, and it leaves the bytes and the existing
    frames as they were); so the read for processing, made after the two
    others, gives the table that the read for the information panel gave.
    The rows of the preview are the first rows of the whole table when, on
    these bytes, the reader's answer under the limit of 10 rows is the head
    of its answer without limit, under either codec, and the limited read
    fails to decode when the read without limit does. *)
Theorem reads_repeatable (d : option string) :
  repeatable (read_preview d)
  ∧ repeatable (read_full_info d)
  ∧ repeatable (read_data_df d)
  ∧ (∀ σ, let σ1 := snd (read_preview d σ) in
          let σ2 := snd (read_full_info d σ1) in
          read_frame (read_data_df d σ2) = read_frame (read_full_info d σ1))
  ∧ (∀ σ p f,
       (∀ enc df, fst (read_csv (file_buffer σ) d None enc) = Returns df →
          fst (read_csv (file_buffer σ) d (Some 10) enc)
          = Returns (DataFrame_head 10 df)) →
       (∀ e, fst (read_csv (file_buffer σ) d None utf_8) = Raises e →
          is_UnicodeDecodeError e = true →
          ∃ e', fst (read_csv (file_buffer σ) d (Some 10) utf_8) = Raises e'
                ∧ is_UnicodeDecodeError e' = true) →
       read_frame (read_preview d σ) = Ok p →
       read_frame (read_full_info d (snd (read_preview d σ))) = Ok f →
       p = DataFrame_head 10 f).
Proof.
  split; [exact (ladder_repeatable d (Some 10))|].
  split; [exact (ladder_repeatable d None)|].
  split; [exact (ladder_repeatable d None)|].
  split.
  - intros σ σ1 σ2.
    apply (proj1 (ladder_repeatable d None)).
    exact (proj1 (ladder_keeps d None σ1)).
  - intros σ p f Hrows Hdec.
    rewrite read_preview_ladder, read_full_info_ladder, !ladder_frame.
    rewrite (proj1 (ladder_keeps d (Some 10) σ)).
    unfold fallback.
    destruct (fst (read_csv (file_buffer σ) d None utf_8)) as [df|e] eqn:Hfull.
    + rewrite (Hrows utf_8 df Hfull); simpl. congruence.
    + destruct (is_UnicodeDecodeError e) eqn:Hude; simpl.
      2: { destruct (fst (read_csv _ d (Some 10) utf_8)) as [?|e0]; simpl;
             [|destruct (is_UnicodeDecodeError e0)]; simpl; intros; done. }
      destruct (Hdec e eq_refl Hude) as (e' & -> & ->); simpl.
      destruct (fst (read_csv (file_buffer σ) d None latin1)) as [df|e1] eqn:Hl1;
        [|done].
      rewrite (Hrows latin1 df Hl1). congruence.
Qed.

End Ingestor.

Section Traces.
Context `{Numeric} `{!Pandas} `{!Hplc}.

Variable P : event → Prop.
Variable halts : bool.

Lemma only_ret {A} (a : A) : only_shows P halts (ret a).
Proof. intros σ. exists []. simpl. by rewrite app_nil_r. Qed.

Lemma only_raise {A} (e : exception) : only_shows P halts (@raise _ A e).
Proof. intros σ. exists []. simpl. by rewrite app_nil_r. Qed.

Lemma only_stop {A} : only_shows P true (@st_stop _ A).
Proof. intros σ. exists []. simpl. by rewrite app_nil_r. Qed.

Lemma only_call {A} (r : result A) : only_shows P halts (call r).
Proof. destruct r; [apply only_ret | apply only_raise]. Qed.

Lemma only_emit (ev : event) : P ev → only_shows P halts (emit ev).
Proof. intros Hev σ. exists [ev]. simpl. repeat split; auto. Qed.

Lemma only_load (l : loc) : only_shows P halts (load l).
Proof. intros σ. exists []. simpl. by rewrite app_nil_r. Qed.

Lemma only_alloc (df : DataFrame) : only_shows P halts (alloc df).
Proof. intros σ. exists []. simpl. by rewrite app_nil_r. Qed.

Lemma only_store (l : loc) (df : DataFrame) : only_shows P halts (store l df).
Proof. intros σ. exists []. simpl. by rewrite app_nil_r. Qed.

Lemma only_seek (n : nat) : only_shows P halts (seek n).
Proof. intros σ. exists []. simpl. by rewrite app_nil_r. Qed.

Lemma only_BytesIO (bs : list byte) : only_shows P halts (BytesIO bs).
Proof. intros σ. exists []. simpl. by rewrite app_nil_r. Qed.

Lemma only_pd_read_csv (d : option string) (n : option nat) (enc : encoding) :
  (∀ pos, P (PdReadCsv d n enc pos)) →
  only_shows P halts (pd_read_csv d n enc).
Proof.
  intros Hev σ. exists [PdReadCsv d n enc (file_pos σ)].
  unfold pd_read_csv, alloc; simpl.
  destruct (fst (read_csv _ d n enc)); simpl; repeat split; auto.
Qed.

Lemma only_bind {A B} (m : M A) (k : A → M B) :
  only_shows P halts m → (∀ a, only_shows P halts (k a)) →
  only_shows P halts (bind m k).
Proof.
  intros Hm Hk σ. unfold bind.
  destruct (Hm σ) as (evs & Ht & HP & Hh).
  destruct (m σ) as [[a|e|] σ']; simpl in *.
  - destruct (Hk a σ') as (evs' & Ht' & HP' & Hh').
    exists (evs ++ evs'). rewrite Ht', Ht, app_assoc.
    split; [done|]. split; [by apply Forall_app|done].
  - exists evs. split; [|split]; [assumption..|discriminate].
  - exists evs. split; [|split]; [assumption..|].
    intros Hf. by destruct (Hh Hf).
Qed.

Lemma only_try {A} (m : M A) (c : exception → bool) (h : exception → M A) :
  only_shows P halts m → (∀ e, only_shows P halts (h e)) →
  only_shows P halts (try_except m c h).
Proof.
  intros Hm Hh σ. unfold try_except.
  destruct (Hm σ) as (evs & Ht & HP & Hhalt).
  destruct (m σ) as [[a|e|] σ']; simpl in *.
  - exists evs. split; [|split]; assumption.
  - destruct (c e).
    + destruct (Hh e σ') as (evs' & Ht' & HP' & Hh').
      exists (evs ++ evs'). rewrite Ht', Ht, app_assoc.
      split; [done|]. split; [by apply Forall_app|done].
    + exists evs. split; [|split]; assumption.
  - exists evs. split; [|split]; assumption.
Qed.

End Traces.

(** One step of a proof of [only_shows]: the rule of the construct at the
    head of the program. *)
Ltac shows_step :=
  first
    [ apply only_ret | apply only_raise | apply only_call | apply only_load
    | apply only_alloc | apply only_store | apply only_seek
    | apply only_BytesIO
    | apply only_emit; simpl; solve [auto]
    | apply only_pd_read_csv; simpl; solve [auto]
    | apply only_bind; [|intros ?]
    | apply only_try; [|intros ?]
    | match goal with
      | |- only_shows _ _ (if ?b then _ else _) => destruct b
      | |- only_shows _ _ (match ?x with _ => _ end) => destruct x
      end ].

Ltac shows := repeat shows_step.

Section MainTraces.
Context `{Numeric} `{!Pandas} `{!Hplc}.

(** What the button runs never halts, and every read it makes uses the
    delimiter it was given. *)
Lemma process_on_button_shows (avail : bool) (w : widgets)
    (d : option string) (time_col signal_col time_unit : option string)
    (params : dict) :
  only_shows (reads_use d) false
    (process_on_button avail w d time_col signal_col time_unit params).
Proof.
  unfold process_on_button, st_button, process, read_data_df,
    convert_time_to_minutes, DataFrame_copy, getitem, loc_setitem,
    process_chromatogram_hplc, new_Chromatogram, call_fit_peaks, dict_getitem,
    plot_chromatogram, peaks_panel, metric_of,
    st_info, st_error, st_warning, st_success, st_exception.
  shows.
Qed.

End MainTraces.

Section Upload.
Context `{Numeric} `{!Pandas} `{!Hplc}.

Lemma bind_Ok {A B} (m : M A) (k : A → M B) (σ σ' : state) (a : A) :
  m σ = (Ok a, σ') → bind m k σ = k a σ'.
Proof. intros Hm. unfold bind. by rewrite Hm. Qed.

Lemma try_bind_Ok {A B} (m : M A) (k : A → M B) (c : exception → bool)
    (h : exception → M B) (σ σ' : state) (a : A) :
  m σ = (Ok a, σ') → try_except (bind m k) c h σ = try_except (k a) c h σ'.
Proof. intros Hm. unfold try_except, bind. by rewrite Hm. Qed.


Lemma read_preview_run (d : option string) (σ : state) :
  read_preview d σ = after_read σ (fallback (file_buffer σ) d (Some 10)).
Proof. exact (ladder_run d (Some 10) σ). Qed.

Lemma read_full_info_run (d : option string) (σ : state) :
  read_full_info d σ = after_read σ (fallback (file_buffer σ) d None).
Proof. exact (ladder_run d None σ). Qed.

Lemma read_data_df_run (d : option string) (σ : state) :
  read_data_df d σ = after_read σ (fallback (file_buffer σ) d None).
Proof. exact (ladder_run d None σ). Qed.

Lemma preview_panel_run (uploaded_file : UploadedFile) (d : option string)
    (data_preview : loc) (σ : state) (info : DataFrame) (evs : list event)
    (pos : nat) :
  fallback (file_buffer σ) d None = (Returns info, evs, pos) →
  preview_panel uploaded_file d data_preview σ
  = (Ok (length (frames σ)),
     State (frames σ ++ [info]) (file_buffer σ) pos
       (trace σ ++ [StDataframe (frame_at σ data_preview)] ++ evs
        ++ information uploaded_file info
        ++ [statistics (frame_at σ data_preview)])).
Proof.
  intros Hfb. unfold preview_panel.
  erewrite bind_Ok by reflexivity.
  erewrite bind_Ok by reflexivity.
  cbn [frames file_buffer file_pos trace].
  erewrite bind_Ok
    by (rewrite read_full_info_run; cbn [file_buffer]; rewrite Hfb; reflexivity).
  do 8 (erewrite bind_Ok by reflexivity;
        cbn [frames file_buffer file_pos trace]).
  rewrite frame_at_new.
  change (frame_at _ data_preview) with (frame_at σ data_preview).
  unfold statistics, information, try_except, bind, call.
  destruct (describe (frame_at σ data_preview)) as [dd|e];
    cbn [ret raise emit st_warning any_Exception frames file_buffer file_pos
         trace fst snd];
    repeat rewrite <- app_assoc; reflexivity.
Qed.

End Upload.

Section Unavailable.
Context `{Numeric} `{!Pandas} `{!Hplc}.




End Unavailable.

Section UploadClaims.
Context `{Numeric} `{!Pandas} `{!Hplc}.

Lemma only_stop_error {A} (P : event → Prop) (s : string) :
  P (StError s) → only_shows P true (st_error s ;;; @st_stop _ A).
Proof.
  intros Hs σ. exists [StError s]. simpl.
  split; [done|]. split; [by constructor | discriminate].
Qed.

Lemma only_weaken {A} (P : event → Prop) (m : M A) :
  only_shows P false m → only_shows P true m.
Proof.
  intros Hm σ. destruct (Hm σ) as (evs & Ht & HP & _).
  exists evs. split; [done|]. split; [done|discriminate].
Qed.


(** Every read in the branch of an uploaded file is made with the delimiter
    of the select box. *)
Lemma with_uploaded_file_shows (avail : bool) (w : widgets)
    (uploaded_file : UploadedFile) (params : dict) :
  only_shows (reads_use (chosen_delimiter w)) true
    (with_uploaded_file avail w uploaded_file params).
Proof.
  intros σ.
  unfold with_uploaded_file.
  erewrite bind_Ok by reflexivity.
  erewrite bind_Ok by reflexivity.
  cbn [frames file_buffer file_pos trace].
  fold (chosen_delimiter w).
  set (σ1 := State _ _ _ _).
  assert (only_shows (reads_use (chosen_delimiter w)) true
    (try_except
       (data_preview <- read_preview (chosen_delimiter w) ;;
        st_success "✅ Ficheiro carregado com sucesso! (Lidas primeiras 10 linhas para pré-visualização)" ;;;
        full_data_info <- preview_panel uploaded_file (chosen_delimiter w)
                            data_preview ;;
        emit (StHeader "📋 Configuração das Colunas") ;;;
        info <- load full_data_info ;;
        check_columns (columns info) ;;;
        sel <- select_columns w (columns info) ;;
        process_on_button avail w (chosen_delimiter w) (fst (fst sel))
          (snd (fst sel)) (snd sel) params)
       any_Exception (report_read_error (chosen_delimiter w)))) as Hbody.
  { apply only_try.
    2: { intros e. unfold report_read_error, st_error, st_info, st_exception.
         shows. }
    unfold read_preview, preview_panel, read_full_info, select_columns,
      st_selectbox, process_on_button, st_button, process, read_data_df,
      convert_time_to_minutes, DataFrame_copy, getitem, loc_setitem,
      process_chromatogram_hplc, new_Chromatogram, call_fit_peaks,
      dict_getitem, plot_chromatogram, peaks_panel, metric_of,
      st_info, st_error, st_warning, st_success, st_exception.
    repeat (apply only_bind; [|intros ?]).
    all: try (unfold check_columns;
              match goal with
              | |- only_shows _ _ (match ?x with _ :: _ => _ | _ => _ end) =>
                  destruct x; [by apply only_stop_error | apply only_ret]
              end).
    all: shows. }
  destruct (Hbody σ1) as (evs & Ht & HP & _).
  exists (StWidget "Delimitador" delimiter_options :: evs).
  split; [|split; [|discriminate]].
  - rewrite Ht. subst σ1. cbn [trace]. by rewrite <- app_assoc.
  - constructor; [exact I | exact HP].
Qed.

Lemma upload_until_check (avail : bool) (w : widgets)
    (uploaded_file : UploadedFile) (params : dict) (σ : state)
    (p info : DataFrame) (evs1 evs2 : list event) (pos1 pos2 : nat) :
  let d := chosen_delimiter w in
  fallback (getvalue uploaded_file) d (Some 10) = (Returns p, evs1, pos1) →
  fallback (getvalue uploaded_file) d None = (Returns info, evs2, pos2) →
  with_uploaded_file avail w uploaded_file params σ
  = try_except
      (check_columns (columns info) ;;;
       sel <- select_columns w (columns info) ;;
       process_on_button avail w d (fst (fst sel)) (snd (fst sel)) (snd sel)
         params)
      any_Exception (report_read_error d)
      (State (frames σ ++ [p; info]) (getvalue uploaded_file) pos2
         (trace σ ++ before_check uploaded_file p info evs1 evs2)).
Proof.
  intros d Hprev Hinfo. unfold with_uploaded_file.
  erewrite bind_Ok by reflexivity.
  erewrite bind_Ok by reflexivity.
  cbn [frames file_buffer file_pos trace].
  fold (chosen_delimiter w). fold d.
  erewrite try_bind_Ok
    by (rewrite read_preview_run; cbn [file_buffer]; rewrite Hprev; reflexivity).
  cbn [frames file_buffer file_pos trace].
  erewrite try_bind_Ok by reflexivity.
  cbn [frames file_buffer file_pos trace].
  erewrite try_bind_Ok by (by apply preview_panel_run).
  cbn [frames file_buffer file_pos trace].
  erewrite try_bind_Ok by reflexivity.
  cbn [frames file_buffer file_pos trace].
  erewrite try_bind_Ok by reflexivity.
  cbn [frames file_buffer file_pos trace].
  rewrite !frame_at_new.
  unfold before_check. repeat rewrite <- app_assoc. reflexivity.
Qed.

Lemma fallback_events (bs : list byte) (d : option string) (n : option nat) :
  Forall (λ ev, ∃ enc, ev = PdReadCsv d n enc 0) (snd (fst (fallback bs d n))).
Proof.
  unfold fallback.
  destruct (fst (read_csv bs d n utf_8)) as [df|e]; simpl;
    [|destruct (is_UnicodeDecodeError e); simpl];
    repeat constructor; eauto.
Qed.


End UploadClaims.

Section IngestorClaims.
Context `{Numeric} `{!Pandas} `{!Hplc}.

(** C6: the preview read (at most 10 rows), the read for the information
    panel and the read for processing (both the whole file) follow one
    fallback policy with the delimiter they are given: UTF-8 first, from the
    start of the buffer, and on [UnicodeDecodeError] once more from the start
    as Latin-1, so that bytes that are not UTF-8 but that the reader accepts
    as Latin-1 come out as a frame; and in the branch of an uploaded file
    every read, the preview and the whole file alike, is made with the
    delimiter chosen in the select box. *)
Theorem reads_decode_utf8_then_latin1 :
  reads_with_fallback read_preview (Some 10)
  ∧ reads_with_fallback read_full_info None
  ∧ reads_with_fallback read_data_df None
  ∧ ∀ (HPLC_LIB_AVAILABLE : bool) (w : widgets) (uploaded_file : UploadedFile)
      (params : dict) (σ : state),
      ∃ evs,
        trace (snd (with_uploaded_file HPLC_LIB_AVAILABLE w uploaded_file
                      params σ))
        = trace σ ++ evs
        ∧ ∀ d n enc pos,
            PdReadCsv d n enc pos ∈ evs →
            d = delimiter_options !! default 0 (delimiter_selector w).
Proof.
  split; [exact (ladder_reads_with_fallback (Some 10))|].
  split; [exact (ladder_reads_with_fallback None)|].
  split; [exact (ladder_reads_with_fallback None)|].
  intros avail w uploaded_file params σ.
  destruct (with_uploaded_file_shows avail w uploaded_file params σ)
    as (evs & Ht & HP & _).
  exists evs. split; [done|].
  intros d n enc pos Hin.
  rewrite Forall_forall in HP. exact (HP _ Hin).
Qed.

End IngestorClaims.

Section WholeScript.
Context `{Numeric} `{!Pandas} `{!Hplc}.

(** With the hplc package installed the module runs [main] with the flag set. *)
Lemma script_installed (eager_annotations : bool) (w : widgets) (σ : state) :
  script eager_annotations true w σ = main true w σ.
Proof.
  unfold script, import_hplc, def_process_chromatogram_hplc.
  rewrite andb_false_r. reflexivity.
Qed.

(** Without the package the module reaches [main], with the flag cleared,
    on an interpreter that evaluates annotations on demand; on one that
    evaluates them at the definition it stops with [NameError] at line 52,
    after the two messages of the import. *)
Lemma script_not_installed (w : widgets) (σ : state) :
  let σ' :=
    State (frames σ) (file_buffer σ) (file_pos σ)
      (trace σ
       ++ [StError "⚠️ Biblioteca HPLC não encontrada. Por favor instale: pip install hplc";
           StInfo "⚠️ Algumas funcionalidades (detecção e análise de picos) não estarão disponíveis sem a biblioteca HPLC."]) in
  script false false w σ = main false w σ'
  ∧ script true false w σ
    = (Raise (Exc (OtherError "NameError")
                  "name 'Chromatogram' is not defined"), σ').
Proof.
  unfold script, import_hplc, def_process_chromatogram_hplc, bind, st_error,
    st_info, emit, ret, raise; simpl.
  rewrite <- !app_assoc. split; reflexivity.
Qed.

End WholeScript.

(** * The properties on concrete files *)

Section Runs.

#[local] Existing Instance Sample.rationals.
#[local] Existing Instance Sample.reader.
#[local] Existing Instance Sample.peak_finder.



(** C3 at a frame without the signal column. *)
Lemma process_chromatogram_hplc_missing_column_witness :
  (in_columns "Tempo" (frame_at (Sample.holding Sample.time_only) 0) = false
   ∨ in_columns "Sinal" (frame_at (Sample.holding Sample.time_only) 0) = false)
  ∧ ∃ dados_picos σ',
      process_chromatogram_hplc true 0 "Tempo" "Sinal" Sample.default_params
        (Sample.holding Sample.time_only)
      = (Ok (None, dados_picos), σ')
      ∧ frame_at σ' dados_picos = DataFrame_new.
Proof.
  split; [right; reflexivity|].
  destruct (process_chromatogram_hplc_missing_column true
              (Sample.holding Sample.time_only) 0 "Tempo" "Sinal"
              Sample.default_params (or_intror eq_refl))
    as (l & σ' & evs & msg & Hrun & Hempty & _).
  exists l, σ'. split; [exact Hrun | exact Hempty].
Defined.

(** C4 at a fit routine that fails. *)
Lemma process_chromatogram_hplc_fit_raises_witness :
  let c0 : @Chromatogram Sample.rationals Sample.failing_fit :=
    (Sample.two_columns, "Tempo", "Sinal") in
  let width := @PFloat Sample.rationals (1 # 10)%Q in
  let prominence := @PFloat Sample.rationals (2 # 100)%Q in
  let e := Exc (OtherError "RuntimeError") "Optimal parameters not found" in
  in_columns "Tempo" (frame_at (Sample.holding Sample.two_columns) 0) = true
  ∧ in_columns "Sinal" (frame_at (Sample.holding Sample.two_columns) 0) = true
  ∧ @Chromatogram_init Sample.rationals Sample.failing_fit
      (frame_at (Sample.holding Sample.two_columns) 0) "Tempo" "Sinal"
    = Returns c0
  ∧ dict_get Sample.default_params "correct_baseline" = Some (PBool false)
  ∧ dict_get Sample.default_params "approx_peak_width" = Some width
  ∧ dict_get Sample.default_params "buffer" = Some (PInt 100)
  ∧ dict_get Sample.default_params "prominence" = Some prominence
  ∧ @fit_peaks Sample.rationals Sample.failing_fit c0
      (PBool false) width (PInt 100) prominence
    = Raises e
  ∧ ∃ dados_picos σ',
      @process_chromatogram_hplc Sample.rationals Sample.failing_fit true 0
        "Tempo" "Sinal" Sample.default_params
        (Sample.holding Sample.two_columns)
      = (Ok (None, dados_picos), σ')
      ∧ frame_at σ' dados_picos = DataFrame_new.
Proof.
  intros c0 width prominence e.
  repeat (split; [reflexivity|]).
  destruct (@process_chromatogram_hplc_fit_raises Sample.rationals
              Sample.reader Sample.failing_fit
              (Sample.holding Sample.two_columns) 0 "Tempo" "Sinal"
              Sample.default_params c0 (PBool false) width (PInt 100)
              prominence e
              eq_refl eq_refl eq_refl eq_refl eq_refl eq_refl eq_refl eq_refl)
    as (l & σ' & Hrun & Hempty & _).
  exists l, σ'. split; [exact Hrun | exact Hempty].
Defined.




(** The column check does halt a run whose reader finds no column. *)
Example no_column_halts :
  fst (@main Sample.rationals Sample.blank_reader Sample.peak_finder true
         (Sample.upload Sample.semicolons 0 false) Sample.start)
  = Halt
  ∧ last (trace (snd (@main Sample.rationals Sample.blank_reader Sample.peak_finder true
                        (Sample.upload Sample.semicolons 0 false)
                        Sample.start)))
    = Some (StError "Não foram detetadas colunas no ficheiro. Verifique o delimitador.").
Proof. split; vm_compute; reflexivity. Qed.

(** C6 at a Latin-1 file: UTF-8 fails, Latin-1 gives the frame. *)
Lemma reads_decode_utf8_then_latin1_witness :
  fst (read_csv Sample.latin1_file (Some ",") (Some 10) utf_8)
  = Raises (Exc UnicodeDecodeError "'utf-8' codec can't decode bytes")
  ∧ fst (read_csv Sample.latin1_file (Some ",") (Some 10) latin1)
    = Returns Sample.latin1_frame
  ∧ ∃ l σ',
      read_preview (Some ",") (State [] Sample.latin1_file 0 []) = (Ok l, σ')
      ∧ frame_at σ' l = Sample.latin1_frame.
Proof.
  assert (fst (read_csv Sample.latin1_file (Some ",") (Some 10) utf_8)
          = Raises (Exc UnicodeDecodeError "'utf-8' codec can't decode bytes"))
    as Hutf8 by (vm_compute; reflexivity).
  assert (fst (read_csv Sample.latin1_file (Some ",") (Some 10) latin1)
          = Returns Sample.latin1_frame) as Hlatin1 by (vm_compute; reflexivity).
  split; [exact Hutf8|]. split; [exact Hlatin1|].
  destruct reads_decode_utf8_then_latin1 as (Hpreview & _).
  destruct (Hpreview (State [] Sample.latin1_file 0 []) (Some ","))
    as (_ & _ & Hfallback).
  destruct (Hfallback _ Hutf8 eq_refl) as (_ & Hframe & _).
  exact (Hframe _ Hlatin1).
Defined.

(** C9, as amended, at the file of scenario 1: the preview is the head of the
    whole table. *)
Lemma reads_repeatable_witness :
  read_frame (read_preview (Some ",") (State [] Sample.scenario1 0 []))
  = Ok Sample.scenario1_frame
  ∧ read_frame (read_full_info (Some ",")
                  (snd (read_preview (Some ",")
                          (State [] Sample.scenario1 0 []))))
    = Ok Sample.scenario1_frame
  ∧ Sample.scenario1_frame = DataFrame_head 10 Sample.scenario1_frame.
Proof.
  assert (read_frame (read_preview (Some ",") (State [] Sample.scenario1 0 []))
          = Ok Sample.scenario1_frame) as Hprev by (vm_compute; reflexivity).
  assert (read_frame (read_full_info (Some ",")
                        (snd (read_preview (Some ",")
                                (State [] Sample.scenario1 0 []))))
          = Ok Sample.scenario1_frame) as Hfull by (vm_compute; reflexivity).
  split; [exact Hprev|]. split; [exact Hfull|].
  refine (proj2 (proj2 (proj2 (proj2 (reads_repeatable (Some ",")))))
            (State [] Sample.scenario1 0 []) _ _ _ _ Hprev Hfull).
  - intros [] df Hdf; vm_compute in Hdf; injection Hdf as <-;
      vm_compute; reflexivity.
  - intros e He. vm_compute in He. discriminate.
Defined.

(** C9 as stated fails: of a file whose first ten rows are numbers and whose
    eleventh is text, the preview (a read of its own, limited to ten rows) is
    a frame of numbers, while the first ten rows of the whole table, read
    from the same bytes with the same delimiter, hold the time column as
    text. *)
Lemma preview_is_not_the_head_of_the_file :
  read_frame (read_preview (Some ",") (State [] Sample.late_text 0 []))
  = Ok Sample.late_text_preview
  ∧ read_frame (read_full_info (Some ",")
                  (snd (read_preview (Some ",")
                          (State [] Sample.late_text 0 []))))
    = Ok Sample.late_text_frame
  ∧ Sample.late_text_preview ≠ DataFrame_head 10 Sample.late_text_frame.
Proof.
  split; [vm_compute; reflexivity|]. split; [vm_compute; reflexivity|].
  intros Heq. vm_compute in Heq. discriminate.
Qed.

(** End-to-end scenario 1: the times 0, 1 and 2 seconds become 0, 1/60 and
    2/60 minutes in the frame that is plotted. *)
Example scenario1_times_in_minutes :
  frames (snd (main true (Sample.upload Sample.scenario1 0 true)
                 Sample.start)) !! 3
  = Some Sample.scenario1_minutes.
Proof. vm_compute. reflexivity. Qed.

(** C2 on a run: with the third option of the unit select box the frame that
    is plotted still holds 0, 1 and 2, and the warning of the unknown unit is
    shown. *)
Example milliseconds_option_on_a_run :
  frames (snd (main true (Sample.upload Sample.scenario1 2 true)
                 Sample.start)) !! 3
  = Some Sample.scenario1_frame
  ∧ trace (snd (main true (Sample.upload Sample.scenario1 2 true)
                  Sample.start)) !! 29
    = Some (StWarning "Unidade de tempo desconhecida: Milissegundos. Nenhuma conversão aplicada.").
Proof. split; vm_compute; reflexivity. Qed.

(** C10 on a run that succeeds: a chromatogram and the table of the fit. *)
Example adapter_success :
  fst (process_chromatogram_hplc true 0 "Tempo" "Sinal" Sample.default_params
         (Sample.holding Sample.two_columns))
  = Ok (Some (Sample.two_columns, "Tempo", "Sinal"), 1)
  ∧ frame_at (snd (process_chromatogram_hplc true 0 "Tempo" "Sinal"
                     Sample.default_params
                     (Sample.holding Sample.two_columns))) 1
    = [("rt", map (@CNum Sample.rationals) [60%Q]);
       ("height", map (@CNum Sample.rationals) [5%Q]);
       ("area", map (@CNum Sample.rationals) [5%Q])].
Proof. split; vm_compute; reflexivity. Qed.

End Runs.

(** * Further properties of the script *)

Section Defaults.

Lemma py_in_elem_of (x : string) (l : list string) :
  py_in x l = true ↔ x ∈ l.
Proof.
  unfold py_in. induction l as [|y l IH]; simpl.
  - split; [discriminate | intros Hin; inversion Hin].
  - rewrite elem_of_cons. destruct (String.eqb_spec x y) as [->|Hne]; simpl.
    + split; auto.
    + rewrite IH. split; [auto | intros [?|?]; [done | auto]].
Qed.

Lemma py_in_false (x : string) (l : list string) :
  py_in x l = false ↔ x ∉ l.
Proof.
  rewrite <- py_in_elem_of. destruct (py_in x l); split; done.
Qed.

(** [l.index(x)] of a member: the position of its first occurrence. *)
Lemma py_index_first (x : string) (l : list string) :
  x ∈ l →
  l !! py_index x l = Some x
  ∧ py_index x l < length l
  ∧ ∀ j, j < py_index x l → l !! j ≠ Some x.
Proof.
  induction l as [|y l IH]; [intros Hin; inversion Hin|].
  intros Hin. simpl. destruct (String.eqb_spec x y) as [->|Hne].
  - split; [done|]. split; [simpl; lia|]. intros j Hj; lia.
  - apply elem_of_cons in Hin as [?|Hin]; [done|].
    destruct (IH Hin) as (Hlook & Hlt & Hfirst).
    split; [done|]. split; [simpl; lia|].
    intros [|j] Hj; simpl; [congruence|]. apply Hfirst. lia.
Qed.

Lemma default_time_col_index_lt (available_columns : list string) :
  available_columns ≠ [] →
  default_time_col_index available_columns < length available_columns.
Proof.
  intros Hne. unfold default_time_col_index.
  destruct (py_in "time" available_columns) eqn:Htime.
  { apply py_in_elem_of in Htime. by apply py_index_first. }
  destruct (py_in "tempo" available_columns) eqn:Htempo.
  { apply py_in_elem_of in Htempo. by apply py_index_first. }
  destruct available_columns; [done | simpl; lia].
Qed.

Lemma default_signal_col_index_lt (available_columns : list string) :
  available_columns ≠ [] →
  default_signal_col_index available_columns < length available_columns.
Proof.
  intros Hne. unfold default_signal_col_index.
  destruct (py_in "signal" available_columns) eqn:Ha.
  { apply py_in_elem_of in Ha. by apply py_index_first. }
  destruct (py_in "sinal" available_columns) eqn:Hb.
  { apply py_in_elem_of in Hb. by apply py_index_first. }
  destruct (py_in "intensity" available_columns) eqn:Hc.
  { apply py_in_elem_of in Hc. by apply py_index_first. }
  destruct available_columns as [|c [|c' cs]]; [done| |]; simpl; lia.
Qed.

(** The default position of the time select box: the first column named
    "time"; without one, the first column named "tempo"; without either,
    the first column.  The names are matched as they are written (a column
    "Time" or "Tempo" is not one of them).  On a frame with any column, the
    position is one of its columns. *)
Theorem default_time_col_index_picks (available_columns : list string) :
  available_columns ≠ [] →
  default_time_col_index available_columns < length available_columns
  ∧ ("time" ∈ available_columns →
     available_columns !! default_time_col_index available_columns
     = Some "time"
     ∧ ∀ j, j < default_time_col_index available_columns →
            available_columns !! j ≠ Some "time")
  ∧ ("time" ∉ available_columns → "tempo" ∈ available_columns →
     available_columns !! default_time_col_index available_columns
     = Some "tempo")
  ∧ ("time" ∉ available_columns → "tempo" ∉ available_columns →
     default_time_col_index available_columns = 0).
Proof.
  intros Hne. unfold default_time_col_index.
  destruct (py_in "time" available_columns) eqn:Htime.
  - apply py_in_elem_of in Htime.
    destruct (py_index_first _ _ Htime) as (Hl & Hlt & Hfirst).
    repeat split; try done.
  - assert ("time" ∉ available_columns) as Hnt by (by apply py_in_false).
    destruct (py_in "tempo" available_columns) eqn:Htempo.
    + apply py_in_elem_of in Htempo.
      destruct (py_index_first _ _ Htempo) as (Hl & Hlt & Hfirst).
      repeat split; try done.
    + assert ("tempo" ∉ available_columns) as Hnp by (by apply py_in_false).
      destruct available_columns; [done|].
      repeat split; try done. simpl; lia.
Qed.

(** The default position of the signal select box: the first column named
    "signal", else "sinal", else "intensity"; without any of them, the second
    column, or the first when the frame has a single column.  On a frame with
    any column, the position is one of its columns. *)
Theorem default_signal_col_index_picks (available_columns : list string) :
  available_columns ≠ [] →
  default_signal_col_index available_columns < length available_columns
  ∧ ("signal" ∈ available_columns →
     available_columns !! default_signal_col_index available_columns
     = Some "signal")
  ∧ ("signal" ∉ available_columns → "sinal" ∈ available_columns →
     available_columns !! default_signal_col_index available_columns
     = Some "sinal")
  ∧ ("signal" ∉ available_columns → "sinal" ∉ available_columns →
     "intensity" ∈ available_columns →
     available_columns !! default_signal_col_index available_columns
     = Some "intensity")
  ∧ ("signal" ∉ available_columns → "sinal" ∉ available_columns →
     "intensity" ∉ available_columns →
     default_signal_col_index available_columns
     = if decide (1 < length available_columns) then 1 else 0).
Proof.
  intros Hne. unfold default_signal_col_index.
  destruct (py_in "signal" available_columns) eqn:H1.
  { apply py_in_elem_of in H1.
    destruct (py_index_first _ _ H1) as (Hl & Hlt & _).
    repeat split; try done. }
  assert ("signal" ∉ available_columns) as Hn1 by (by apply py_in_false).
  destruct (py_in "sinal" available_columns) eqn:H2.
  { apply py_in_elem_of in H2.
    destruct (py_index_first _ _ H2) as (Hl & Hlt & _).
    repeat split; try done. }
  assert ("sinal" ∉ available_columns) as Hn2 by (by apply py_in_false).
  destruct (py_in "intensity" available_columns) eqn:H3.
  { apply py_in_elem_of in H3.
    destruct (py_index_first _ _ H3) as (Hl & Hlt & _).
    repeat split; try done. }
  assert ("intensity" ∉ available_columns) as Hn3 by (by apply py_in_false).
  destruct available_columns as [|c [|c' cs]]; [done| |];
    repeat split; try done; simpl; lia.
Qed.


End Defaults.

Section Selection.
Context `{Numeric} `{!Pandas} `{!Hplc}.

(** The three select boxes of the column configuration: whatever the widgets
    hold, a column they give is a column of the frame and a unit they give is
    one of the three options; on a frame with any column the boxes that were
    not touched give the default columns, and the unit box gives "Segundos";
    on a frame with a single column both column boxes give that column. *)
Theorem select_columns_gives_columns (w : widgets)
    (available_columns : list string) (σ : state) :
  ∃ time_col signal_col time_unit,
    select_columns w available_columns σ
    = (Ok (time_col, signal_col, time_unit),
       State (frames σ) (file_buffer σ) (file_pos σ)
         (trace σ
          ++ [StWidget "Coluna de Tempo" available_columns;
              StWidget "Coluna de Sinal" available_columns;
              StWidget "Unidade de Tempo" time_unit_options]))
    ∧ (∀ c, time_col = Some c → c ∈ available_columns)
    ∧ (∀ c, signal_col = Some c → c ∈ available_columns)
    ∧ (∀ u, time_unit = Some u → u ∈ time_unit_options)
    ∧ (available_columns ≠ [] → time_column_selector w = None →
       is_Some time_col
       ∧ time_col
         = available_columns !! default_time_col_index available_columns)
    ∧ (available_columns ≠ [] → signal_column_selector w = None →
       is_Some signal_col
       ∧ signal_col
         = available_columns !! default_signal_col_index available_columns)
    ∧ (time_unit_selector w = None → time_unit = Some "Segundos")
    ∧ (∀ c, available_columns = [c] →
         time_column_selector w = None → signal_column_selector w = None →
         time_col = Some c ∧ signal_col = Some c).
Proof.
  eexists _, _, _. split.
  { unfold select_columns, st_selectbox, bind, emit, ret; simpl.
    repeat rewrite <- app_assoc. reflexivity. }
  split; [intros c Hc; by eapply list_elem_of_lookup_2|].
  split; [intros c Hc; by eapply list_elem_of_lookup_2|].
  split; [intros u Hu; by eapply list_elem_of_lookup_2|].
  split.
  { intros Hne ->; simpl. split; [|done].
    apply lookup_lt_is_Some. by apply default_time_col_index_lt. }
  split.
  { intros Hne ->; simpl. split; [|done].
    apply lookup_lt_is_Some. by apply default_signal_col_index_lt. }
  split; [by intros ->|].
  intros c -> -> ->; simpl.
  pose proof (default_time_col_index_lt [c] ltac:(done)) as Ht.
  pose proof (default_signal_col_index_lt [c] ltac:(done)) as Hs.
  simpl in Ht, Hs.
  replace (default_time_col_index [c]) with 0 by lia.
  replace (default_signal_col_index [c]) with 0 by lia.
  done.
Qed.

(** The sidebar always gives [params] its four keys, in both states of the
    flag, so a look-up of one of them never fails: the values of the four
    controls when the hplc package is there, and False, 0.1, 100 and 0.02
    with a warning in the sidebar when it is not. *)
Theorem sidebar_gives_four_parameters (HPLC_LIB_AVAILABLE : bool)
    (w : widgets) (σ : state) :
  ∃ params σ',
    sidebar HPLC_LIB_AVAILABLE w σ = (Ok params, σ')
    ∧ map fst params
      = ["correct_baseline"; "approx_peak_width"; "buffer"; "prominence"]
    ∧ (∃ v1 v2 v3 v4,
         dict_get params "correct_baseline" = Some v1
         ∧ dict_get params "approx_peak_width" = Some v2
         ∧ dict_get params "buffer" = Some v3
         ∧ dict_get params "prominence" = Some v4
         ∧ (HPLC_LIB_AVAILABLE = true →
            v1 = PBool (correct_baseline_checkbox w)
            ∧ v2 = PFloat (peak_width_slider w)
            ∧ v3 = PInt (buffer_slider w)
            ∧ v4 = PFloat (prominence_slider w))
         ∧ (HPLC_LIB_AVAILABLE = false →
            v1 = PBool false
            ∧ v2 = PFloat (num_of_Q (1 # 10))
            ∧ v3 = PInt 100
            ∧ v4 = PFloat (num_of_Q (2 # 100))
            ∧ last (trace σ')
              = Some (StSidebarWarning
                        "Parâmetros de análise desabilitados (biblioteca HPLC não encontrada).")))
    ∧ frames σ' = frames σ.
Proof.
  destruct HPLC_LIB_AVAILABLE; eexists _, _;
    (split; [reflexivity|]); (split; [reflexivity|]);
    (split; [|reflexivity]); eexists _, _, _, _;
    repeat (split; [reflexivity|]); split; try done.
  intros _. repeat (split; [reflexivity|]).
  simpl. by rewrite last_snoc.
Qed.

(** The button: while it is not pressed nothing is read and nothing is
    processed, only the button is shown; pressed while a column box gives no
    column (or a column with the empty name), only a warning is shown. *)
Theorem process_on_button_guards (HPLC_LIB_AVAILABLE : bool) (w : widgets)
    (delimiter time_col signal_col time_unit : option string)
    (params : dict) (σ : state) :
  let shown evs :=
    State (frames σ) (file_buffer σ) (file_pos σ) (trace σ ++ evs) in
  (process_button w = false →
   process_on_button HPLC_LIB_AVAILABLE w delimiter time_col signal_col
     time_unit params σ
   = (Ok tt, shown [StWidget "🚀 Processar Cromatograma" []]))
  ∧ (process_button w = true →
     time_col = None ∨ time_col = Some "" ∨ signal_col = None
     ∨ signal_col = Some "" →
     process_on_button HPLC_LIB_AVAILABLE w delimiter time_col signal_col
       time_unit params σ
     = (Ok tt,
        shown [StWidget "🚀 Processar Cromatograma" [];
               StWarning "Por favor, selecione as colunas de Tempo e Sinal."])).
Proof.
  intros shown. split.
  - intros Hb. unfold process_on_button, st_button, bind, emit, ret; simpl.
    by rewrite Hb.
  - intros Hb Hmiss.
    assert (py_not time_col || py_not signal_col = true) as Hnot.
    { destruct Hmiss as [-> | [-> | [-> | ->]]]; simpl; try done;
        by rewrite orb_true_r. }
    unfold process_on_button, st_button, bind, emit, ret, st_warning, emit;
      simpl.
    rewrite Hb, Hnot. unfold shown; simpl. by rewrite <- app_assoc.
Qed.

End Selection.

Section NormalizerErrors.
Context `{Numeric}.


Lemma Series_apply_text (k : Z) (s : Series) :
  numeric s = false →
  Series_apply (cell_truediv k) s
  = Raises (Exc TypeError "unsupported operand type(s) for /: 'str' and 'int'").
Proof.
  induction s as [|[x|t] s IH]; simpl; [done | | done].
  intros Hs. by rewrite (IH Hs).
Qed.


End NormalizerErrors.

Section AdapterErrors.
Context `{Numeric} `{!Pandas} `{!Hplc}.

(** When the constructor of the chromatogram raises, the adapter shows the
    error with the message of the exception and returns no chromatogram and
    the empty table; [fit_peaks] is not called and [params] is not looked
    at. *)
Theorem process_chromatogram_hplc_constructor_raises (σ : state)
    (data_df : loc) (time_col signal_col : string) (params : dict)
    (e : exception) :
  in_columns time_col (frame_at σ data_df) = true →
  in_columns signal_col (frame_at σ data_df) = true →
  Chromatogram_init (frame_at σ data_df) time_col signal_col = Raises e →
  process_chromatogram_hplc true data_df time_col signal_col params σ
  = (Ok (None, length (frames σ)),
     State (frames σ ++ [DataFrame_new]) (file_buffer σ) (file_pos σ)
       (trace σ
        ++ [StInfo "🛠️ Processando com biblioteca HPLC...";
            HplcChromatogram (frame_at σ data_df) time_col signal_col;
            StError ("❌ Erro ao processar com biblioteca HPLC: "
                     +:+ exc_str e);
            StException e])).
Proof.
  intros Ht Hs Hinit.
  rewrite (adapter_present σ data_df time_col signal_col params Ht Hs).
  cbv zeta. by rewrite Hinit.
Qed.

Lemma fit_arguments_missing (params : dict) (before after : list string)
    (key : string) :
  fit_keys = before ++ key :: after →
  (∀ k, k ∈ before → is_Some (dict_get params k)) →
  dict_get params key = None →
  fit_arguments params = Raises (Exc KeyError ("'" +:+ key +:+ "'")).
Proof.
  unfold fit_keys, fit_arguments. intros Hkeys Hbefore Hkey.
  destruct before as [|k1 before]; simplify_eq/=; [by rewrite Hkey|].
  destruct (Hbefore "correct_baseline") as [v1 ->]; [by repeat constructor|].
  destruct before as [|k2 before]; simplify_eq/=; [by rewrite Hkey|].
  destruct (Hbefore "approx_peak_width") as [v2 ->]; [by repeat constructor|].
  destruct before as [|k3 before]; simplify_eq/=; [by rewrite Hkey|].
  destruct (Hbefore "buffer") as [v3 ->]; [by repeat constructor|].
  destruct before as [|k4 before]; simplify_eq/=; [by rewrite Hkey|].
  destruct before; simplify_eq/=.
Qed.

(** A [params] dictionary that lacks one of the four keys: the chromatogram
    is built, then the look-up of the first missing key, in the order of the
    call, raises [KeyError]; the handler shows it and the adapter returns no
    chromatogram and the empty table, and [fit_peaks] is not called. *)
Theorem process_chromatogram_hplc_missing_parameter (σ : state)
    (data_df : loc) (time_col signal_col : string) (params : dict)
    (c0 : Chromatogram) (before after : list string) (key : string) :
  in_columns time_col (frame_at σ data_df) = true →
  in_columns signal_col (frame_at σ data_df) = true →
  Chromatogram_init (frame_at σ data_df) time_col signal_col = Returns c0 →
  fit_keys = before ++ key :: after →
  (∀ k, k ∈ before → is_Some (dict_get params k)) →
  dict_get params key = None →
  process_chromatogram_hplc true data_df time_col signal_col params σ
  = (Ok (None, length (frames σ)),
     State (frames σ ++ [DataFrame_new]) (file_buffer σ) (file_pos σ)
       (trace σ
        ++ [StInfo "🛠️ Processando com biblioteca HPLC...";
            HplcChromatogram (frame_at σ data_df) time_col signal_col;
            StError ("❌ Erro ao processar com biblioteca HPLC: '"
                     +:+ key +:+ "'");
            StException (Exc KeyError ("'" +:+ key +:+ "'"))])).
Proof.
  intros Ht Hs Hinit Hkeys Hbefore Hkey.
  rewrite (adapter_present σ data_df time_col signal_col params Ht Hs).
  cbv zeta. rewrite Hinit.
  by rewrite (fit_arguments_missing params before after key).
Qed.

Lemma sidebar_run (avail : bool) (w : widgets) (σ : state) :
  ∃ params σ',
    sidebar avail w σ = (Ok params, σ')
    ∧ frames σ' = frames σ ∧ file_buffer σ' = file_buffer σ
    ∧ file_pos σ' = file_pos σ
    ∧ (∃ evs, trace σ' = trace σ ++ evs
              ∧ Forall (λ ev, ¬ hplc_call ev ∧ ¬ read_call ev) evs)
    ∧ map fst params = fit_keys
    ∧ fit_arguments params
      = Returns (if avail
                 then (PBool (correct_baseline_checkbox w),
                       PFloat (peak_width_slider w),
                       PInt (buffer_slider w),
                       PFloat (prominence_slider w))
                 else (PBool false, PFloat (num_of_Q (1 # 10)),
                       PInt 100, PFloat (num_of_Q (2 # 100)))).
Proof.
  destruct avail; eexists _, _; (split; [reflexivity|]); simpl;
    repeat (split; [reflexivity|]); (split; [|done]);
    rewrite <- ?app_assoc; eexists; (split; [reflexivity|]);
    repeat constructor; simpl; tauto.
Qed.

End AdapterErrors.

Section Composition.
Context `{Numeric} `{!Pandas} `{!Hplc}.

(** The sidebar and the adapter together: with the dictionary that the
    sidebar builds, no look-up of the adapter fails, and [fit_peaks] is
    called on the chromatogram with the values of the four controls, in the
    order baseline flag, peak width, buffer, prominence; its table is the one
    returned, and its exception the one reported. *)
Theorem fit_peaks_gets_the_sidebar_values (w : widgets) (σ0 σ : state)
    (data_df : loc) (time_col signal_col : string) (c0 : Chromatogram) :
  in_columns time_col (frame_at σ data_df) = true →
  in_columns signal_col (frame_at σ data_df) = true →
  Chromatogram_init (frame_at σ data_df) time_col signal_col = Returns c0 →
  ∃ params σ1,
    sidebar true w σ0 = (Ok params, σ1)
    ∧ let started :=
        [StInfo "🛠️ Processando com biblioteca HPLC...";
         HplcChromatogram (frame_at σ data_df) time_col signal_col;
         HplcFitPeaks] in
      process_chromatogram_hplc true data_df time_col signal_col params σ
      = match fit_peaks c0 (PBool (correct_baseline_checkbox w))
                (PFloat (peak_width_slider w)) (PInt (buffer_slider w))
                (PFloat (prominence_slider w)) with
        | Returns (c1, peaks) =>
            (Ok (Some c1, length (frames σ)),
             State (frames σ ++ [peaks]) (file_buffer σ) (file_pos σ)
               (trace σ ++ started
                ++ [StSuccess "✅ Análise de picos concluída."]))
        | Raises e =>
            (Ok (None, length (frames σ)),
             State (frames σ ++ [DataFrame_new]) (file_buffer σ) (file_pos σ)
               (trace σ ++ started
                ++ [StError ("❌ Erro ao processar com biblioteca HPLC: "
                             +:+ exc_str e);
                    StException e]))
        end.
Proof.
  intros Ht Hs Hinit.
  destruct (sidebar_run true w σ0)
    as (params & σ1 & Hside & _ & _ & _ & _ & _ & Hargs).
  exists params, σ1. split; [done|]. cbv zeta.
  rewrite (adapter_present σ data_df time_col signal_col params Ht Hs).
  cbv zeta. rewrite Hinit, Hargs.
  destruct (fit_peaks _ _ _ _ _) as [[c1 peaks]|e]; [done|].
  unfold gave_up, reported; simpl. by rewrite <- ?app_assoc.
Qed.

End Composition.

Section Panels.
Context `{Numeric} `{!Pandas} `{!Hplc}.

Lemma in_columns_column_None (c : string) (df : DataFrame) :
  in_columns c df = false ↔ column c df = None.
Proof.
  split.
  - intros Hin. destruct (column c df) as [s|] eqn:E; [|done].
    assert (in_columns c df = true) by (apply in_columns_column; eauto).
    congruence.
  - intros Hcol. destruct (in_columns c df) eqn:E; [|done].
    apply in_columns_column in E as [s Hs]. congruence.
Qed.

(** The run of the plot, in its four cases. *)
Lemma plot_chromatogram_run (σ : state) (data_df dados_picos : loc)
    (time_col signal_col : string) :
  let df := frame_at σ data_df in
  let picos := frame_at σ dados_picos in
  let shown evs fig :=
    (Ok tt,
     State (frames σ) (file_buffer σ) (file_pos σ)
       (trace σ ++ [StSubheader "Cromatograma"] ++ evs
        ++ [StPyplot (fig ++ [AxSetTitle "Cromatograma com Picos Detetados";
                              AxGrid])])) in
  plot_chromatogram data_df time_col signal_col dados_picos σ
  = match column time_col df, column signal_col df with
    | Some xs, Some ys =>
        let labels :=
          [AxSetXlabel (time_col +:+ " (" +:+ dtype xs +:+ ")");
           AxSetYlabel (signal_col +:+ " (" +:+ dtype ys +:+ ")")] in
        match empty picos, column "rt" picos, column "height" picos with
        | false, Some rt, Some height =>
            shown [] ([AxPlot xs ys "b-"]
                      ++ [AxPlotPeaks rt height "ro" "Picos Detetados";
                          AxVlines rt height; AxLegend] ++ labels)
        | _, _, _ => shown [] ([AxPlot xs ys "b-"] ++ labels)
        end
    | _, _ =>
        shown [StError "Não foi possível plotar o cromatograma. Verifique as colunas e os dados."]
              [AxSetXlabel "Tempo"; AxSetYlabel "Sinal"]
    end.
Proof.
  intros df picos shown. subst df picos shown.
  destruct (column time_col (frame_at σ data_df)) as [xs|] eqn:Hx.
  2: { apply in_columns_column_None in Hx.
       unfold plot_chromatogram, bind, load, emit, ret, st_error, emit; simpl.
       unfold frame_at in *; simpl. rewrite Hx; simpl.
       by rewrite <- ?app_assoc. }
  assert (in_columns time_col (frame_at σ data_df) = true) as Ht
    by (apply in_columns_column; eauto).
  destruct (column signal_col (frame_at σ data_df)) as [ys|] eqn:Hy.
  2: { apply in_columns_column_None in Hy.
       unfold plot_chromatogram, bind, load, emit, ret, st_error, emit; simpl.
       unfold frame_at in *; simpl. rewrite Ht, Hy; simpl.
       by rewrite <- ?app_assoc. }
  assert (in_columns signal_col (frame_at σ data_df) = true) as Hs
    by (apply in_columns_column; eauto).
  assert (∀ peaks,
    (if negb (empty (frame_at σ dados_picos))
        && in_columns "rt" (frame_at σ dados_picos)
        && in_columns "height" (frame_at σ dados_picos)
     then
       rt <- getitem dados_picos "rt" ;;
       height <- getitem dados_picos "height" ;;
       ret [AxPlotPeaks rt height "ro" "Picos Detetados";
            AxVlines rt height; AxLegend]
     else ret [])
      (State (frames σ) (file_buffer σ) (file_pos σ)
         (trace σ ++ [StSubheader "Cromatograma"]))
    = (Ok peaks,
       State (frames σ) (file_buffer σ) (file_pos σ)
         (trace σ ++ [StSubheader "Cromatograma"])) →
    plot_chromatogram data_df time_col signal_col dados_picos σ
    = (Ok tt,
       State (frames σ) (file_buffer σ) (file_pos σ)
         (trace σ ++ [StSubheader "Cromatograma"] ++ []
          ++ [StPyplot
                (([AxPlot xs ys "b-"] ++ peaks
                  ++ [AxSetXlabel (time_col +:+ " (" +:+ dtype xs +:+ ")");
                      AxSetYlabel (signal_col +:+ " (" +:+ dtype ys +:+ ")")])
                 ++ [AxSetTitle "Cromatograma com Picos Detetados";
                     AxGrid])]))) as Hplot.
  { intros peaks Hpeaks.
    unfold plot_chromatogram.
    erewrite bind_Ok by reflexivity.
    erewrite bind_Ok by reflexivity.
    cbn [frames file_buffer file_pos trace].
    change (frame_at (State (frames σ) (file_buffer σ) (file_pos σ) _)
              data_df) with (frame_at σ data_df).
    rewrite Ht, Hs. cbn [andb].
    erewrite bind_Ok.
    2: { erewrite bind_Ok.
         2: { unfold getitem. erewrite bind_Ok by reflexivity.
              change (frame_at (State (frames σ) (file_buffer σ) (file_pos σ) _)
                        data_df) with (frame_at σ data_df).
              rewrite Hx. reflexivity. }
         erewrite bind_Ok.
         2: { unfold getitem. erewrite bind_Ok by reflexivity.
              change (frame_at (State (frames σ) (file_buffer σ) (file_pos σ) _)
                        data_df) with (frame_at σ data_df).
              rewrite Hy. reflexivity. }
         erewrite bind_Ok by reflexivity.
         change (frame_at (State (frames σ) (file_buffer σ) (file_pos σ) _)
                   dados_picos) with (frame_at σ dados_picos).
         erewrite bind_Ok by exact Hpeaks.
         reflexivity. }
    unfold emit; cbn [frames file_buffer file_pos trace].
    by rewrite <- ?app_assoc. }
  destruct (empty (frame_at σ dados_picos)) eqn:He.
  { destruct (column "rt" (frame_at σ dados_picos)),
      (column "height" (frame_at σ dados_picos)); by apply Hplot. }
  destruct (column "rt" (frame_at σ dados_picos)) as [rt|] eqn:Hrt.
  2: { apply in_columns_column_None in Hrt. rewrite Hrt in Hplot.
       by apply Hplot. }
  assert (in_columns "rt" (frame_at σ dados_picos) = true) as Hirt
    by (apply in_columns_column; eauto).
  destruct (column "height" (frame_at σ dados_picos)) as [ht|] eqn:Hh.
  2: { apply in_columns_column_None in Hh. rewrite Hh, andb_false_r in Hplot.
       by apply Hplot. }
  assert (in_columns "height" (frame_at σ dados_picos) = true) as Hiht
    by (apply in_columns_column; eauto).
  rewrite Hirt, Hiht in Hplot. cbn [negb andb] in Hplot.
  apply Hplot.
  erewrite bind_Ok.
  2: { unfold getitem. erewrite bind_Ok by reflexivity.
       change (frame_at (State (frames σ) (file_buffer σ) (file_pos σ) _)
                 dados_picos) with (frame_at σ dados_picos).
       rewrite Hrt. reflexivity. }
  erewrite bind_Ok.
  2: { unfold getitem. erewrite bind_Ok by reflexivity.
       change (frame_at (State (frames σ) (file_buffer σ) (file_pos σ) _)
                 dados_picos) with (frame_at σ dados_picos).
       rewrite Hh. reflexivity. }
  reflexivity.
Qed.

(** The plot never fails and shows exactly one figure, which ends with the
    title and the grid.  On a frame that lacks the time or the signal column
    the figure has the two plain labels only and an error is shown.  On a
    frame with both, the figure starts with the curve of the signal against
    the time and carries the two labels with the column types; between them
    it has the red markers, the drop lines over the same retention times and
    heights, and the legend, exactly when the peak table is not empty and
    has both an [rt] and a [height] column. *)
Theorem plot_chromatogram_figure (σ : state) (data_df dados_picos : loc)
    (time_col signal_col : string) :
  let df := frame_at σ data_df in
  let picos := frame_at σ dados_picos in
  ∃ (evs : list event) (fig : list ax_cmd),
    plot_chromatogram data_df time_col signal_col dados_picos σ
    = (Ok tt,
       State (frames σ) (file_buffer σ) (file_pos σ)
         (trace σ ++ [StSubheader "Cromatograma"] ++ evs
          ++ [StPyplot (fig ++ [AxSetTitle "Cromatograma com Picos Detetados";
                                AxGrid])]))
    ∧ (column time_col df = None ∨ column signal_col df = None →
       evs = [StError "Não foi possível plotar o cromatograma. Verifique as colunas e os dados."]
       ∧ fig = [AxSetXlabel "Tempo"; AxSetYlabel "Sinal"])
    ∧ (∀ xs ys, column time_col df = Some xs → column signal_col df = Some ys →
         evs = []
         ∧ ∃ peaks,
             fig = [AxPlot xs ys "b-"] ++ peaks
                   ++ [AxSetXlabel (time_col +:+ " (" +:+ dtype xs +:+ ")");
                       AxSetYlabel (signal_col +:+ " (" +:+ dtype ys +:+ ")")]
             ∧ (empty picos = true ∨ column "rt" picos = None
                ∨ column "height" picos = None → peaks = [])
             ∧ (∀ rt height, empty picos = false →
                  column "rt" picos = Some rt →
                  column "height" picos = Some height →
                  peaks = [AxPlotPeaks rt height "ro" "Picos Detetados";
                           AxVlines rt height; AxLegend])).
Proof.
  intros df picos.
  pose proof (plot_chromatogram_run σ data_df dados_picos time_col signal_col)
    as Hrun. cbv zeta in Hrun. fold df picos in Hrun.
  destruct (column time_col df) as [xs|] eqn:Hx.
  2: { eexists _, _. split; [exact Hrun|]. split; [done|]. by intros. }
  destruct (column signal_col df) as [ys|] eqn:Hy.
  2: { eexists _, _. split; [exact Hrun|]. split; [done|]. by intros. }
  destruct (empty picos) eqn:He.
  { eexists [], _. split; [exact Hrun|]. split; [by intros [|]|].
    intros xs' ys' [= <-] [= <-]. split; [done|]. exists [].
    split; [done|]. split; [done|]. by intros. }
  destruct (column "rt" picos) as [rt|] eqn:Hrt.
  2: { eexists [], _. split; [exact Hrun|]. split; [by intros [|]|].
       intros xs' ys' [= <-] [= <-]. split; [done|]. exists [].
       split; [done|]. split; [done|]. by intros. }
  destruct (column "height" picos) as [ht|] eqn:Hh.
  2: { eexists [], _. split; [exact Hrun|]. split; [by intros [|]|].
       intros xs' ys' [= <-] [= <-]. split; [done|]. exists [].
       split; [done|]. split; [done|]. by intros. }
  eexists [], _. split; [exact Hrun|]. split; [by intros [|]|].
  intros xs' ys' [= <-] [= <-]. split; [done|].
  eexists. split; [reflexivity|]. split.
  - intros [|[|]]; done.
  - by intros rt' ht' _ [= <-] [= <-].
Qed.

(** The panel of the peaks on a table that is not empty, while the package
    is there: the count of the rows, the table, the download of the table as
    CSV under the name picos_detectados.csv and the header of the statistics
    are always shown.  The six statistics follow only when the table has
    both a [height] and an [area] column, in the order mean, maximum and
    minimum height, total, mean and maximum area; a table that lacks one of
    the two gets none, and the panel still ends normally. *)
Theorem peaks_panel_statistics (σ : state) (dados_picos : loc) :
  let picos := frame_at σ dados_picos in
  let shown :=
    [StSubheader "Informações dos Picos";
     StMetric "Número de picos encontrados" (pretty (len picos));
     StDataframe picos;
     StDownloadButton "💾 Transferir dados dos picos (CSV)" (to_csv picos)
       "picos_detectados.csv";
     StSubheader "📈 Estatísticas dos Picos"] in
  empty picos = false →
  (column "height" picos = None ∨ column "area" picos = None →
   peaks_panel true dados_picos σ
   = (Ok tt,
      State (frames σ) (file_buffer σ) (file_pos σ) (trace σ ++ shown)))
  ∧ (∀ height area v1 v2 v3 v4 v5 v6,
       column "height" picos = Some height →
       column "area" picos = Some area →
       stat_3f Mean height = Returns v1 → stat_3f Max height = Returns v2 →
       stat_3f Min height = Returns v3 → stat_3f Sum area = Returns v4 →
       stat_3f Mean area = Returns v5 → stat_3f Max area = Returns v6 →
       peaks_panel true dados_picos σ
       = (Ok tt,
          State (frames σ) (file_buffer σ) (file_pos σ)
            (trace σ ++ shown
             ++ [StMetric "Altura média" v1; StMetric "Altura máxima" v2;
                 StMetric "Altura mínima" v3; StMetric "Área Total" v4;
                 StMetric "Área média" v5; StMetric "Área máxima" v6]))).
Proof.
  intros picos shown Hempty. subst shown.
  assert (peaks_panel true dados_picos σ
    = (if in_columns "height" picos && in_columns "area" picos
       then
         metric_of "Altura média" dados_picos "height" Mean ;;;
         metric_of "Altura máxima" dados_picos "height" Max ;;;
         metric_of "Altura mínima" dados_picos "height" Min ;;;
         metric_of "Área Total" dados_picos "area" Sum ;;;
         metric_of "Área média" dados_picos "area" Mean ;;;
         metric_of "Área máxima" dados_picos "area" Max
       else ret tt)
        (State (frames σ) (file_buffer σ) (file_pos σ)
           (trace σ
            ++ [StSubheader "Informações dos Picos";
                StMetric "Número de picos encontrados" (pretty (len picos));
                StDataframe picos;
                StDownloadButton "💾 Transferir dados dos picos (CSV)"
                  (to_csv picos) "picos_detectados.csv";
                StSubheader "📈 Estatísticas dos Picos"]))) as Hrun.
  { unfold peaks_panel.
    erewrite bind_Ok by reflexivity.
    erewrite bind_Ok by reflexivity.
    cbn [frames file_buffer file_pos trace].
    change (frame_at (State (frames σ) (file_buffer σ) (file_pos σ) _)
              dados_picos) with picos.
    rewrite Hempty. cbn [negb].
    do 4 (erewrite bind_Ok by reflexivity;
          cbn [frames file_buffer file_pos trace]).
    by rewrite <- ?app_assoc. }
  rewrite Hrun. clear Hrun. split.
  - intros Hmiss.
    assert (in_columns "height" picos && in_columns "area" picos = false)
      as ->; [|done].
    destruct Hmiss as [Hm | Hm]; apply in_columns_column_None in Hm;
      rewrite Hm; [done | by rewrite andb_false_r].
  - intros height area v1 v2 v3 v4 v5 v6 Hh Ha Hv1 Hv2 Hv3 Hv4 Hv5 Hv6.
    assert (in_columns "height" picos = true) as ->
      by (apply in_columns_column; eauto).
    assert (in_columns "area" picos = true) as ->
      by (apply in_columns_column; eauto).
    cbn [andb].
    assert (∀ label col stat s v b p t,
      column col picos = Some s → stat_3f stat s = Returns v →
      metric_of label dados_picos col stat (State (frames σ) b p t)
      = (Ok tt, State (frames σ) b p (t ++ [StMetric label v]))) as Hmetric.
    { intros label col stat s v b p t Hcol Hstat. unfold metric_of, getitem.
      erewrite bind_Ok.
      2: { erewrite bind_Ok by reflexivity.
           change (frame_at (State (frames σ) b p t) dados_picos) with picos.
           rewrite Hcol. reflexivity. }
      rewrite Hstat. reflexivity. }
    do 5 (erewrite bind_Ok by (eapply Hmetric; eassumption)).
    erewrite Hmetric by eassumption.
    by rewrite <- ?app_assoc.
Qed.

End Panels.

Section OutcomeRules.
Context `{Numeric} `{!Pandas} `{!Hplc}.

Lemma never_ret {A} (a : A) : never_raises (ret a).
Proof. by intros σ e. Qed.

Lemma never_emit (ev : event) : never_raises (emit ev).
Proof. by intros σ e. Qed.

Lemma never_load (l : loc) : never_raises (load l).
Proof. by intros σ e. Qed.

Lemma never_BytesIO (bs : list byte) : never_raises (BytesIO bs).
Proof. by intros σ e. Qed.

Lemma never_stop {A} : never_raises (@st_stop _ A).
Proof. by intros σ e. Qed.

Lemma never_bind {A B} (m : M A) (k : A → M B) :
  never_raises m → (∀ a, never_raises (k a)) → never_raises (bind m k).
Proof.
  intros Hm Hk σ e. unfold bind. specialize (Hm σ).
  destruct (m σ) as [[a|e'|] σ']; simpl in *.
  - apply Hk.
  - by destruct (Hm e').
  - done.
Qed.

Lemma never_try {A} (m : M A) (h : exception → M A) :
  (∀ e, never_raises (h e)) → never_raises (try_except m any_Exception h).
Proof.
  intros Hh σ e. unfold try_except.
  destruct (m σ) as [[a|e'|] σ']; simpl; [done | apply Hh | done].
Qed.

Lemma halts_never {A} (ev : event) (P : event → Prop) (m : M A) :
  only_shows P false m → halts_after ev m.
Proof.
  intros Hm σ Hhalt. destruct (Hm σ) as (evs & _ & _ & Hno).
  by destruct (Hno eq_refl).
Qed.

Lemma halts_bind {A B} (ev : event) (m : M A) (k : A → M B) :
  halts_after ev m → (∀ a, halts_after ev (k a)) → halts_after ev (bind m k).
Proof.
  intros Hm Hk σ. unfold bind. specialize (Hm σ).
  destruct (m σ) as [[a|e'|] σ']; simpl in *; [apply Hk | done | by intros _; apply Hm].
Qed.

Lemma halts_try {A} (ev : event) (m : M A) (c : exception → bool)
    (h : exception → M A) :
  halts_after ev m → (∀ e, halts_after ev (h e)) →
  halts_after ev (try_except m c h).
Proof.
  intros Hm Hh σ. unfold try_except. specialize (Hm σ).
  destruct (m σ) as [[a|e'|] σ']; simpl in *; [done | | by intros _; apply Hm].
  destruct (c e'); [apply Hh | done].
Qed.

Lemma halts_check_columns (available_columns : list string) :
  halts_after
    (StError "Não foram detetadas colunas no ficheiro. Verifique o delimitador.")
    (check_columns available_columns).
Proof.
  intros σ. destruct available_columns; simpl; [|done].
  intros _. by rewrite last_snoc.
Qed.

Lemma keeps_ret {A} (a : A) : keeps (ret a).
Proof. by intros σ. Qed.

Lemma keeps_raise {A} (e : exception) : keeps (@raise _ A e).
Proof. by intros σ. Qed.

Lemma keeps_call {A} (r : result A) : keeps (call r).
Proof. destruct r; [apply keeps_ret | apply keeps_raise]. Qed.

Lemma keeps_emit (ev : event) : keeps (emit ev).
Proof. by intros σ. Qed.

Lemma keeps_load (l : loc) : keeps (load l).
Proof. by intros σ. Qed.

Lemma keeps_seek (n : nat) : keeps (seek n).
Proof. by intros σ. Qed.

Lemma keeps_alloc (df : DataFrame) : keeps (alloc df).
Proof.
  intros σ. split; [done|]. intros l df' Hl; simpl.
  rewrite lookup_app_l; [done | by eapply lookup_lt_Some].
Qed.

Lemma keeps_pd_read_csv (d : option string) (n : option nat) (enc : encoding) :
  keeps (pd_read_csv d n enc).
Proof.
  intros σ. unfold pd_read_csv, alloc; simpl.
  destruct (fst (read_csv _ d n enc)); simpl; (split; [done|]); [|done].
  intros l df' Hl. rewrite lookup_app_l; [done | by eapply lookup_lt_Some].
Qed.

Lemma keeps_bind {A B} (m : M A) (k : A → M B) :
  keeps m → (∀ a, keeps (k a)) → keeps (bind m k).
Proof.
  intros Hm Hk σ. unfold bind. destruct (Hm σ) as [Hb Hf].
  destruct (m σ) as [[a|e'|] σ']; simpl in *; [|done..].
  destruct (Hk a σ') as [Hb' Hf']. split; [congruence | eauto].
Qed.

Lemma keeps_try {A} (m : M A) (c : exception → bool) (h : exception → M A) :
  keeps m → (∀ e, keeps (h e)) → keeps (try_except m c h).
Proof.
  intros Hm Hh σ. unfold try_except. destruct (Hm σ) as [Hb Hf].
  destruct (m σ) as [[a|e'|] σ']; simpl in *; [done| |done].
  destruct (c e'); [|done].
  destruct (Hh e' σ') as [Hb' Hf']. split; [congruence | eauto].
Qed.

Lemma keeps_convert (data : loc) (time_col time_unit : string) :
  keeps (convert_time_to_minutes data time_col time_unit).
Proof.
  intros σ.
  destruct (convert_shape σ data time_col time_unit)
    as (df' & t' & -> & _). simpl. split; [done|].
  intros l df Hl. rewrite lookup_app_l; [done | by eapply lookup_lt_Some].
Qed.

End OutcomeRules.

(** One step of a proof of [keeps] or of [never_raises]. *)
Ltac keeps_step :=
  first
    [ apply keeps_ret | apply keeps_raise | apply keeps_call | apply keeps_load
    | apply keeps_alloc | apply keeps_seek | apply keeps_emit
    | apply keeps_pd_read_csv | apply keeps_convert
    | apply keeps_bind; [|intros ?]
    | apply keeps_try; [|intros ?]
    | match goal with
      | |- keeps (if ?b then _ else _) => destruct b
      | |- keeps (match ?x with _ => _ end) => destruct x
      end ].

Ltac never_step :=
  first
    [ apply never_ret | apply never_emit | apply never_load
    | apply never_BytesIO | apply never_stop
    | apply never_try; intros ?
    | apply never_bind; [|intros ?]
    | match goal with
      | |- never_raises (if ?b then _ else _) => destruct b
      | |- never_raises (match ?x with _ => _ end) => destruct x
      end ].

Section Processing.
Context `{Numeric} `{!Pandas} `{!Hplc}.

Lemma process_keeps (avail : bool) (d : option string)
    (time_col signal_col time_unit : string) (params : dict) :
  keeps (process avail d time_col signal_col time_unit params).
Proof.
  unfold process, read_data_df, process_chromatogram_hplc, new_Chromatogram,
    call_fit_peaks, dict_getitem, plot_chromatogram, peaks_panel, metric_of,
    getitem, st_info, st_error, st_warning, st_success, st_exception.
  repeat keeps_step.
Qed.

Lemma process_shows (avail : bool) (d : option string)
    (time_col signal_col time_unit : string) (params : dict) :
  only_shows (λ _, True) false
    (process avail d time_col signal_col time_unit params).
Proof.
  unfold process, read_data_df,
    convert_time_to_minutes, DataFrame_copy, getitem, loc_setitem,
    process_chromatogram_hplc, new_Chromatogram, call_fit_peaks, dict_getitem,
    plot_chromatogram, peaks_panel, metric_of,
    st_info, st_error, st_warning, st_success, st_exception.
  shows.
Qed.

Lemma process_never_raises (avail : bool) (d : option string)
    (time_col signal_col time_unit : string) (params : dict) :
  never_raises (process avail d time_col signal_col time_unit params).
Proof.
  unfold process, st_error, st_exception. repeat never_step.
Qed.

Lemma process_returns (avail : bool) (d : option string)
    (time_col signal_col time_unit : string) (params : dict) (σ : state) :
  fst (process avail d time_col signal_col time_unit params σ) = Ok tt.
Proof.
  pose proof (process_never_raises avail d time_col signal_col time_unit
                params σ) as Hr.
  destruct (process_shows avail d time_col signal_col time_unit params σ)
    as (evs & _ & _ & Hh).
  destruct (fst (process avail d time_col signal_col time_unit params σ))
    as [[]|e|]; [done | by destruct (Hr e) | by destruct (Hh eq_refl)].
Qed.

End Processing.

Section ProcessTheorems.
Context `{Numeric} `{!Pandas} `{!Hplc}.

Lemma try_any_cases {A} (m : M A) (h : exception → M A) (σ : state) :
  (∃ a σ', m σ = (Ok a, σ') ∧ try_except m any_Exception h σ = (Ok a, σ'))
  ∨ (∃ e σ', m σ = (Raise e, σ') ∧ try_except m any_Exception h σ = h e σ')
  ∨ (∃ σ', m σ = (Halt, σ') ∧ try_except m any_Exception h σ = (Halt, σ')).
Proof.
  unfold try_except. destruct (m σ) as [[a|e|] σ']; eauto 6.
Qed.

Lemma some_bind_l {A B} (Q : event → Prop) (m : M A) (k : A → M B) :
  shows_some Q m → (∀ a, only_shows (λ _, True) true (k a)) →
  shows_some Q (bind m k).
Proof.
  intros Hm Hk σ b σ''. unfold bind.
  destruct (m σ) as [[a|e|] σ'] eqn:Hrun; [|done..].
  intros Hka. destruct (Hm σ a σ' Hrun) as (evs & Ht & HQ).
  destruct (Hk a σ') as (evs' & Ht' & _). rewrite Hka in Ht'; simpl in Ht'.
  exists (evs ++ evs'). rewrite Ht', Ht, app_assoc. split; [done|].
  apply Exists_app. by left.
Qed.

Lemma some_bind_r {A B} (Q : event → Prop) (m : M A) (k : A → M B) :
  only_shows (λ _, True) true m → (∀ a, shows_some Q (k a)) →
  shows_some Q (bind m k).
Proof.
  intros Hm Hk σ b σ''. unfold bind.
  destruct (Hm σ) as (evs & Ht & _).
  destruct (m σ) as [[a|e|] σ'] eqn:Hrun; [|done..].
  intros Hka. destruct (Hk a σ' b σ'' Hka) as (evs' & Ht' & HQ).
  simpl in Ht.
  exists (evs ++ evs'). rewrite Ht', Ht, app_assoc. split; [done|].
  apply Exists_app. by right.
Qed.

Lemma plot_chromatogram_some (data_df dados_picos : loc)
    (time_col signal_col : string) :
  shows_some figure
    (plot_chromatogram data_df time_col signal_col dados_picos).
Proof.
  intros σ a σ'.
  rewrite (plot_chromatogram_run σ data_df dados_picos time_col signal_col).
  cbv zeta.
  destruct (column time_col (frame_at σ data_df)),
    (column signal_col (frame_at σ data_df)),
    (empty (frame_at σ dados_picos)),
    (column "rt" (frame_at σ dados_picos)),
    (column "height" (frame_at σ dados_picos)); intros [= <- <-]; simpl;
    eexists; (split; [reflexivity|]);
    rewrite ?Exists_cons, ?Exists_app, ?Exists_cons; simpl; tauto.
Qed.

(** What the button runs always comes to an end, normally: no exception
    leaves it and it never halts the script.  It leaves the content of the
    buffer and every frame object that existed as they were.  And it has
    either shown a figure, or shown last the error message with the text of
    an exception followed by that exception (both when the failure comes
    after the figure). *)
Theorem process_ends_normally (avail : bool) (delimiter : option string)
    (time_col signal_col time_unit : string) (params : dict) (σ : state) :
  let r := process avail delimiter time_col signal_col time_unit params σ in
  fst r = Ok tt
  ∧ file_buffer (snd r) = file_buffer σ
  ∧ (∀ l df, frames σ !! l = Some df → frames (snd r) !! l = Some df)
  ∧ ∃ evs, trace (snd r) = trace σ ++ evs
      ∧ (Exists figure evs
         ∨ ∃ e before, evs = before ++ processing_error e).
Proof.
  intros r. subst r.
  split; [apply process_returns|].
  destruct (process_keeps avail delimiter time_col signal_col time_unit
              params σ) as [Hbuf Hframes].
  split; [done|]. split; [done|].
  unfold process.
  match goal with
  | |- context [try_except ?m _ ?h σ] =>
      destruct (try_any_cases m h σ)
        as [(a & σ' & Hm & ->) | [(e & σ' & Hm & ->) | (σ' & Hm & ->)]];
      [ assert (shows_some figure m) as Hsome
      | assert (only_shows (λ _, True) false m) as Hshows
      | assert (only_shows (λ _, True) false m) as Hshows ]
  end.
  - apply some_bind_r; [unfold read_data_df; shows | intros ?].
    apply some_bind_r;
      [unfold convert_time_to_minutes, DataFrame_copy, getitem, loc_setitem,
         st_info, st_warning; shows | intros ?].
    apply some_bind_r; [shows | intros ?].
    apply some_bind_r;
      [unfold process_chromatogram_hplc, new_Chromatogram, call_fit_peaks,
         dict_getitem, st_info, st_error, st_warning, st_success,
         st_exception; shows | intros ?].
    apply some_bind_r; [shows | intros ?].
    apply some_bind_l; [apply plot_chromatogram_some | intros ?].
    unfold peaks_panel, metric_of, getitem, st_info, st_warning. shows.
  - destruct (Hsome σ a σ' Hm) as (evs & Ht & Hfig). simpl. eauto.
  - unfold read_data_df,
      convert_time_to_minutes, DataFrame_copy, getitem, loc_setitem,
      process_chromatogram_hplc, new_Chromatogram, call_fit_peaks,
      dict_getitem, plot_chromatogram, peaks_panel, metric_of,
      st_info, st_error, st_warning, st_success, st_exception.
    shows.
  - destruct (Hshows σ) as (evs & Ht & _). rewrite Hm in Ht; simpl in Ht.
    exists (evs ++ processing_error e). split.
    + unfold st_error, st_exception, bind, emit; simpl.
      rewrite Ht. unfold processing_error. by rewrite <- !app_assoc.
    + right. eauto.
  - unfold read_data_df,
      convert_time_to_minutes, DataFrame_copy, getitem, loc_setitem,
      process_chromatogram_hplc, new_Chromatogram, call_fit_peaks,
      dict_getitem, plot_chromatogram, peaks_panel, metric_of,
      st_info, st_error, st_warning, st_success, st_exception.
    shows.
  - destruct (Hshows σ) as (evs & _ & _ & Hno). rewrite Hm in Hno.
    by destruct (Hno eq_refl).
Qed.

Lemma try_bind_Raise {A B} (m : M A) (k : A → M B) (c : exception → bool)
    (h : exception → M B) (σ σ' : state) (e : exception) :
  m σ = (Raise e, σ') → c e = true →
  try_except (bind m k) c h σ = h e σ'.
Proof. intros Hm Hc. unfold try_except, bind. by rewrite Hm, Hc. Qed.

(** A read that fails inside what the button runs, on either codec: the
    exception is caught there and shown with the processing message; no
    frame object is made, nothing is converted, plotted or sent to the hplc
    package, and the run of the button ends normally. *)
Theorem process_reports_failed_read (avail : bool) (delimiter : option string)
    (time_col signal_col time_unit : string) (params : dict) (σ : state)
    (e : exception) (evs : list event) (pos : nat) :
  fallback (file_buffer σ) delimiter None = (Raises e, evs, pos) →
  process avail delimiter time_col signal_col time_unit params σ
  = (Ok tt,
     State (frames σ) (file_buffer σ) pos
       (trace σ ++ evs ++ processing_error e)).
Proof.
  intros Hfb. unfold process.
  erewrite try_bind_Raise; [| |reflexivity].
  2: { rewrite read_data_df_run, Hfb. reflexivity. }
  unfold st_error, st_exception, bind, emit, processing_error; simpl.
  by rewrite <- !app_assoc.
Qed.

(** A time column with a cell that is not a number, under a unit that is
    converted: the division raises [TypeError] inside the normaliser; what
    the button runs catches it and shows it with the processing message,
    right after the read; nothing is plotted and the hplc package is not
    called. *)
Theorem process_reports_text_time (avail : bool) (delimiter : option string)
    (time_col signal_col time_unit : string) (params : dict) (σ : state)
    (df : DataFrame) (s : Series) (evs : list event) (pos : nat) :
  fallback (file_buffer σ) delimiter None = (Returns df, evs, pos) →
  column time_col df = Some s →
  numeric s = false →
  time_unit = "Segundos" ∨ time_unit = "Milisegundos" →
  process avail delimiter time_col signal_col time_unit params σ
  = (Ok tt,
     State (frames σ ++ [df; df]) (file_buffer σ) pos
       (trace σ ++ evs
        ++ processing_error
             (Exc TypeError
                "unsupported operand type(s) for /: 'str' and 'int'"))).
Proof.
  intros Hfb Hcol Hs Hunit. unfold process.
  erewrite try_bind_Ok by (rewrite read_data_df_run, Hfb; reflexivity).
  set (σ1 := State (frames σ ++ [df]) (file_buffer σ) pos (trace σ ++ evs)).
  assert (frame_at σ1 (length (frames σ)) = df) as Hdf
    by (subst σ1; apply frame_at_new).
  destruct (convert_branch σ1 (length (frames σ)) time_col time_unit Hunit)
    as (k & ev & Hrun).
  rewrite Hdf, Hcol, (Series_apply_text k s Hs) in Hrun.
  erewrite try_bind_Raise; [|exact Hrun|reflexivity].
  subst σ1.
  unfold st_error, st_exception, bind, emit, processing_error; simpl.
  by rewrite <- !app_assoc.
Qed.

End ProcessTheorems.

(** One step of a proof of [only_shows], the property of an event proved by
    the tactic given. *)
Ltac trace_step tac :=
  lazymatch goal with
  | |- only_shows _ _ (ret _) => apply only_ret
  | |- only_shows _ _ (raise _) => apply only_raise
  | |- only_shows _ _ (call _) => apply only_call
  | |- only_shows _ _ (load _) => apply only_load
  | |- only_shows _ _ (alloc _) => apply only_alloc
  | |- only_shows _ _ (store _ _) => apply only_store
  | |- only_shows _ _ (seek _) => apply only_seek
  | |- only_shows _ _ (BytesIO _) => apply only_BytesIO
  | |- only_shows _ _ st_stop => apply only_stop
  | |- only_shows _ _ (emit _) => apply only_emit; cbv beta; solve [tac]
  | |- only_shows _ _ (pd_read_csv _ _ _) =>
      apply only_pd_read_csv; cbv beta; intros; solve [tac]
  | |- only_shows _ _ (bind _ _) => apply only_bind; [|intros ?]
  | |- only_shows _ _ (try_except _ _ _) => apply only_try; [|intros ?]
  | |- only_shows _ _ (getitem _ _) => unfold getitem
  | |- only_shows _ _ (if ?b then _ else _) => destruct b
  | |- only_shows _ _ (match ?x with _ => _ end) => destruct x
  end.

(** A run that cannot halt. *)
Ltac no_halt :=
  eapply halts_never with (P := λ _, True);
  unfold sidebar, read_preview, preview_panel, read_full_info, select_columns,
    st_selectbox, report_read_error,
    st_info, st_error, st_warning, st_success, st_exception;
  repeat trace_step ltac:(exact I).

Section MainTheorems.
Context `{Numeric} `{!Pandas} `{!Hplc}.

Lemma main_raises_nothing (avail : bool) (w : widgets) :
  never_raises (main avail w).
Proof.
  unfold main, sidebar, with_uploaded_file, st_selectbox, report_read_error,
    st_info, st_error, st_exception.
  repeat never_step.
Qed.

Lemma main_halts_after (avail : bool) (w : widgets) :
  halts_after
    (StError "Não foram detetadas colunas no ficheiro. Verifique o delimitador.")
    (main avail w).
Proof.
  unfold main.
  do 6 (apply halts_bind; [no_halt | intros ?]).
  destruct (file_uploader w) as [uploaded_file|]; [|no_halt].
  unfold with_uploaded_file.
  do 2 (apply halts_bind; [no_halt | intros ?]).
  apply halts_try; [|intros ?; no_halt].
  do 5 (apply halts_bind; [no_halt | intros ?]).
  apply halts_bind; [apply halts_check_columns | intros ?].
  apply halts_bind; [no_halt | intros ?].
  eapply halts_never, process_on_button_shows.
Qed.

(** No exception leaves [main]: a run ends normally, or it is halted by the
    column check, in which case a file was uploaded and the last thing shown
    is the column-detection error.  Without an uploaded file the run ends
    normally and has made no frame object and has not touched the buffer. *)
Theorem main_ends (avail : bool) (w : widgets) (σ : state) :
  let r := main avail w σ in
  (fst r = Ok tt
   ∨ fst r = Halt ∧ is_Some (file_uploader w)
     ∧ last (trace (snd r))
       = Some (StError "Não foram detetadas colunas no ficheiro. Verifique o delimitador."))
  ∧ (file_uploader w = None →
     fst r = Ok tt ∧ frames (snd r) = frames σ
     ∧ file_buffer (snd r) = file_buffer σ ∧ file_pos (snd r) = file_pos σ).
Proof.
  intros r. subst r.
  assert (file_uploader w = None →
          fst (main avail w σ) = Ok tt ∧ frames (snd (main avail w σ)) = frames σ
          ∧ file_buffer (snd (main avail w σ)) = file_buffer σ
          ∧ file_pos (snd (main avail w σ)) = file_pos σ) as Hnone.
  { intros Hw. unfold main. rewrite Hw. by destruct avail. }
  split; [|done].
  pose proof (main_raises_nothing avail w σ) as Hr.
  pose proof (main_halts_after avail w σ) as Hh.
  destruct (fst (main avail w σ)) as [[]|e|] eqn:Hout;
    [by left | by destruct (Hr e) | right].
  split; [done|]. split; [|by apply Hh].
  destruct (file_uploader w); [done|].
  destruct Hnone as [Hok _]; [done|]. congruence.
Qed.

Lemma bind_Raise {A B} (m : M A) (k : A → M B) (σ σ' : state)
    (e : exception) :
  m σ = (Raise e, σ') → bind m k σ = (Raise e, σ').
Proof. intros Hm. unfold bind. by rewrite Hm. Qed.

Lemma try_never {A} (m : M A) (c : exception → bool) (h : exception → M A)
    (σ : state) :
  never_raises m → try_except m c h σ = m σ.
Proof.
  intros Hm. unfold try_except. specialize (Hm σ).
  destruct (m σ) as [[a|e|] σ']; simpl in *; [done | by destruct (Hm e) | done].
Qed.

(** A read that fails before the column configuration, on the preview or on
    the whole file: the outer handler shows the read error with the
    delimiter in use and the text of the exception, then the hint, then the
    exception; the branch ends normally and shows nothing of the column
    configuration. *)
Theorem with_uploaded_file_reports_failed_read (avail : bool) (w : widgets)
    (uploaded_file : UploadedFile) (params : dict) (σ : state)
    (e : exception) :
  let d := chosen_delimiter w in
  let bs := getvalue uploaded_file in
  let report :=
    [StError ("❌ Erro ao ler o ficheiro com o delimitador '"
              +:+ py_str d +:+ "': " +:+ exc_str e);
     read_error_hint; StException e] in
  (∀ evs pos,
     fallback bs d (Some 10) = (Raises e, evs, pos) →
     with_uploaded_file avail w uploaded_file params σ
     = (Ok tt,
        State (frames σ) bs pos
          (trace σ ++ [StWidget "Delimitador" delimiter_options] ++ evs
           ++ report)))
  ∧ (∀ p evs1 pos1 evs2 pos2,
       fallback bs d (Some 10) = (Returns p, evs1, pos1) →
       fallback bs d None = (Raises e, evs2, pos2) →
       with_uploaded_file avail w uploaded_file params σ
       = (Ok tt,
          State (frames σ ++ [p]) bs pos2
            (trace σ ++ [StWidget "Delimitador" delimiter_options] ++ evs1
             ++ [StSuccess "✅ Ficheiro carregado com sucesso! (Lidas primeiras 10 linhas para pré-visualização)";
                 StDataframe p]
             ++ evs2 ++ report))).
Proof.
  intros d bs report. subst report. split.
  - intros evs pos Hprev. unfold with_uploaded_file.
    erewrite bind_Ok by reflexivity.
    erewrite bind_Ok by reflexivity.
    cbn [frames file_buffer file_pos trace].
    fold (chosen_delimiter w). fold d.
    erewrite try_bind_Raise; [| |reflexivity].
    2: { rewrite read_preview_run; cbn [file_buffer]. fold bs.
         rewrite Hprev. reflexivity. }
    unfold report_read_error, st_error, st_info, st_exception, bind, emit,
      read_error_hint; simpl.
    by rewrite <- !app_assoc.
  - intros p evs1 pos1 evs2 pos2 Hprev Hinfo. unfold with_uploaded_file.
    erewrite bind_Ok by reflexivity.
    erewrite bind_Ok by reflexivity.
    cbn [frames file_buffer file_pos trace].
    fold (chosen_delimiter w). fold d.
    erewrite try_bind_Ok.
    2: { rewrite read_preview_run; cbn [file_buffer]. fold bs.
         rewrite Hprev. reflexivity. }
    cbn [frames file_buffer file_pos trace].
    erewrite try_bind_Ok by reflexivity.
    cbn [frames file_buffer file_pos trace].
    erewrite try_bind_Raise; [| |reflexivity].
    2: { unfold preview_panel.
         erewrite bind_Ok by reflexivity.
         erewrite bind_Ok by reflexivity.
         cbn [frames file_buffer file_pos trace].
         erewrite bind_Raise; [reflexivity|].
         rewrite read_full_info_run; cbn [file_buffer]. fold bs.
         rewrite Hinfo. reflexivity. }
    rewrite frame_at_new.
    unfold report_read_error, st_error, st_info, st_exception, bind, emit,
      read_error_hint; simpl.
    by rewrite <- !app_assoc.
Qed.

Lemma after_reads_never_raises (avail : bool) (w : widgets)
    (d : option string) (available_columns : list string) (params : dict) :
  never_raises
    (check_columns available_columns ;;;
     sel <- select_columns w available_columns ;;
     process_on_button avail w d (fst (fst sel)) (snd (fst sel)) (snd sel)
       params).
Proof.
  unfold check_columns, select_columns, st_selectbox, process_on_button,
    st_button, st_warning, st_error.
  repeat first [apply process_never_raises | never_step].
Qed.

Lemma after_reads_shows (avail : bool) (w : widgets)
    (d : option string) (available_columns : list string) (params : dict) :
  only_shows (λ ev, ev ≠ read_error_hint) true
    (check_columns available_columns ;;;
     sel <- select_columns w available_columns ;;
     process_on_button avail w d (fst (fst sel)) (snd (fst sel)) (snd sel)
       params).
Proof.
  unfold check_columns, select_columns, st_selectbox, process_on_button,
    st_button, process, read_data_df,
    convert_time_to_minutes, DataFrame_copy, getitem, loc_setitem,
    process_chromatogram_hplc, new_Chromatogram, call_fit_peaks, dict_getitem,
    plot_chromatogram, peaks_panel, metric_of,
    st_info, st_error, st_warning, st_success, st_exception.
  repeat trace_step ltac:(unfold read_error_hint; discriminate).
Qed.

(** Once both reads before the column configuration have returned, the outer
    handler does not run any more, whatever the widgets hold and whatever the
    button's run meets: every failure from there on is caught and shown
    closer to where it arises, so the hint of the read error is never among
    what is shown, and the branch ends normally or with the halt of the
    column check. *)
Theorem read_error_only_for_reads (avail : bool) (w : widgets)
    (uploaded_file : UploadedFile) (params : dict) (σ : state)
    (p info : DataFrame) :
  let d := chosen_delimiter w in
  let r := with_uploaded_file avail w uploaded_file params σ in
  fst (fst (fallback (getvalue uploaded_file) d (Some 10))) = Returns p →
  fst (fst (fallback (getvalue uploaded_file) d None)) = Returns info →
  (∀ e, fst r ≠ Raise e)
  ∧ ∃ evs, trace (snd r) = trace σ ++ evs
           ∧ Forall (λ ev, ev ≠ read_error_hint) evs.
Proof.
  intros d r Hprev Hinfo. subst r.
  destruct (fallback (getvalue uploaded_file) d (Some 10))
    as [[r1 evs1] pos1] eqn:Hfb1.
  destruct (fallback (getvalue uploaded_file) d None)
    as [[r2 evs2] pos2] eqn:Hfb2.
  simpl in Hprev, Hinfo. subst r1 r2.
  rewrite (upload_until_check avail w uploaded_file params σ p info
             evs1 evs2 pos1 pos2 Hfb1 Hfb2).
  fold d. rewrite try_never by apply after_reads_never_raises.
  split; [intros e; apply after_reads_never_raises|].
  destruct (after_reads_shows avail w d (columns info) params
              (State (frames σ ++ [p; info]) (getvalue uploaded_file) pos2
                 (trace σ ++ before_check uploaded_file p info evs1 evs2)))
    as (evs & Ht & Hevs & _).
  exists (before_check uploaded_file p info evs1 evs2 ++ evs).
  cbn [trace] in Ht.
  split; [by rewrite Ht, <- app_assoc|].
  apply Forall_app. split; [|done].
  pose proof (fallback_events (getvalue uploaded_file) d (Some 10)) as He1.
  pose proof (fallback_events (getvalue uploaded_file) d None) as He2.
  rewrite Hfb1 in He1. rewrite Hfb2 in He2. simpl in He1, He2.
  unfold before_check, information, statistics.
  repeat (apply Forall_app; split).
  all: try (eapply Forall_impl; [eassumption|];
            by intros ev [enc ->]).
  all: repeat constructor; try discriminate.
  destruct (describe p); discriminate.
Qed.

End MainTheorems.

Section Flow.
Context `{Numeric} `{!Pandas} `{!Hplc}.

Lemma main_without_package (w : widgets) :
  only_shows (λ ev, ¬ hplc_call ev) true (main false w).
Proof.
  unfold main, sidebar, with_uploaded_file, read_preview, preview_panel,
    read_full_info, check_columns, select_columns, st_selectbox,
    report_read_error, process_on_button, st_button, process, read_data_df,
    convert_time_to_minutes, DataFrame_copy, getitem, loc_setitem,
    plot_chromatogram, peaks_panel, metric_of,
    st_info, st_error, st_warning, st_success, st_exception.
  repeat trace_step ltac:(exact (λ x : False, x)).
Qed.

(** When the import of the hplc package has failed, a run of the module
    never calls the package, neither its constructor nor [fit_peaks],
    whatever the widgets hold and whatever file is uploaded, on either kind
    of interpreter; and the two messages of the failed import are the first
    things shown. *)
Theorem script_without_package_never_calls_it (eager_annotations : bool)
    (w : widgets) (σ : state) :
  ∃ evs,
    trace (snd (script eager_annotations false w σ))
    = trace σ
      ++ [StError "⚠️ Biblioteca HPLC não encontrada. Por favor instale: pip install hplc";
          StInfo "⚠️ Algumas funcionalidades (detecção e análise de picos) não estarão disponíveis sem a biblioteca HPLC."]
      ++ evs
    ∧ Forall (λ ev, ¬ hplc_call ev) evs.
Proof.
  destruct (script_not_installed w σ) as [Hlazy Heager]. cbv zeta in *.
  destruct eager_annotations.
  - rewrite Heager. exists []. split; [done | constructor].
  - rewrite Hlazy.
    match goal with
    | |- context [main false w ?s] =>
        destruct (main_without_package w s) as (evs & Ht & Hevs & _)
    end.
    exists evs. split; [|done]. rewrite Ht; simpl. by rewrite <- app_assoc.
Qed.

(** A failure of [describe] on the preview is not fatal: the panel shows a
    warning with the text of the exception in place of the statistics, as
    the last thing it shows, and still returns the frame of the whole file,
    from which the column configuration goes on. *)
Theorem preview_panel_statistics_failure (uploaded_file : UploadedFile)
    (d : option string) (data_preview : loc) (σ : state) (info : DataFrame)
    (evs : list event) (pos : nat) (e : exception) :
  fallback (file_buffer σ) d None = (Returns info, evs, pos) →
  describe (frame_at σ data_preview) = Raises e →
  ∃ σ',
    preview_panel uploaded_file d data_preview σ
    = (Ok (length (frames σ)), σ')
    ∧ frame_at σ' (length (frames σ)) = info
    ∧ last (trace σ')
      = Some (StWarning ("Não foi possível gerar estatísticas básicas: "
                         +:+ exc_str e)).
Proof.
  intros Hfb Hdesc.
  rewrite (preview_panel_run uploaded_file d data_preview σ info evs pos Hfb).
  eexists. split; [reflexivity|]. split; [apply frame_at_new|].
  cbn [trace]. unfold statistics. rewrite Hdesc.
  by rewrite !app_assoc, last_snoc.
Qed.



End Flow.

(** * The further properties on concrete inputs *)

Section FurtherRuns.

#[local] Existing Instance Sample.rationals.
#[local] Existing Instance Sample.reader.
#[local] Existing Instance Sample.peak_finder.

(** The default of the time box on the columns Sinal, tempo, time: the
    column "time", although "tempo" comes first. *)
Lemma default_time_col_index_picks_witness :
  ["Sinal"; "tempo"; "time"] ≠ []
  ∧ ["Sinal"; "tempo"; "time"]
      !! default_time_col_index ["Sinal"; "tempo"; "time"]
    = Some "time".
Proof.
  split; [discriminate|].
  destruct (default_time_col_index_picks ["Sinal"; "tempo"; "time"])
    as (_ & Htime & _); [discriminate|].
  apply Htime. apply py_in_elem_of. reflexivity.
Defined.

(** The default of the signal box on the columns Tempo, intensity, sinal:
    the column "sinal". *)
Lemma default_signal_col_index_picks_witness :
  ["Tempo"; "intensity"; "sinal"] ≠ []
  ∧ ["Tempo"; "intensity"; "sinal"]
      !! default_signal_col_index ["Tempo"; "intensity"; "sinal"]
    = Some "sinal".
Proof.
  split; [discriminate|].
  destruct (default_signal_col_index_picks ["Tempo"; "intensity"; "sinal"])
    as (_ & _ & Hsinal & _); [discriminate|].
  apply Hsinal; [apply py_in_false | apply py_in_elem_of]; reflexivity.
Defined.

(** The button pressed while the time box gives no column. *)
Lemma process_on_button_guards_witness :
  process_button (Sample.upload Sample.scenario1 0 true) = true
  ∧ fst (process_on_button true (Sample.upload Sample.scenario1 0 true)
           (Some ",") None (Some "Sinal") (Some "Segundos")
           Sample.default_params Sample.start)
    = Ok tt.
Proof.
  split; [reflexivity|].
  rewrite (proj2 (process_on_button_guards true
                    (Sample.upload Sample.scenario1 0 true) (Some ",") None
                    (Some "Sinal") (Some "Segundos") Sample.default_params
                    Sample.start) eq_refl (or_introl eq_refl)).
  reflexivity.
Defined.


(** The adapter with a package whose constructor fails. *)
Lemma process_chromatogram_hplc_constructor_raises_witness :
  let e := Exc (OtherError "ValueError") "chromatogram could not be built" in
  in_columns "Tempo" (frame_at (Sample.holding Sample.two_columns) 0) = true
  ∧ in_columns "Sinal" (frame_at (Sample.holding Sample.two_columns) 0) = true
  ∧ @Chromatogram_init Sample.rationals Faults.failing_constructor
      (frame_at (Sample.holding Sample.two_columns) 0) "Tempo" "Sinal"
    = Raises e
  ∧ fst (@process_chromatogram_hplc Sample.rationals
           Faults.failing_constructor true 0 "Tempo" "Sinal" []
           (Sample.holding Sample.two_columns))
    = Ok (None, 1).
Proof.
  intros e. split; [reflexivity|]. split; [reflexivity|].
  split; [reflexivity|].
  rewrite (@process_chromatogram_hplc_constructor_raises Sample.rationals
             Faults.failing_constructor
             (Sample.holding Sample.two_columns) 0 "Tempo" "Sinal" [] e
             eq_refl eq_refl eq_refl).
  reflexivity.
Defined.

(** The adapter with a dictionary that lacks the third key. *)
Lemma process_chromatogram_hplc_missing_parameter_witness :
  let params : dict :=
    [("correct_baseline", PBool false);
     ("approx_peak_width", @PFloat Sample.rationals (1 # 10)%Q);
     ("prominence", @PFloat Sample.rationals (2 # 100)%Q)] in
  fit_keys = ["correct_baseline"; "approx_peak_width"] ++ "buffer" :: ["prominence"]
  ∧ dict_get params "buffer" = None
  ∧ trace (snd (process_chromatogram_hplc true 0 "Tempo" "Sinal" params
                  (Sample.holding Sample.two_columns))) !! 2
    = Some (StError "❌ Erro ao processar com biblioteca HPLC: 'buffer'").
Proof.
  intros params. split; [reflexivity|]. split; [reflexivity|].
  pose (c0 := (Sample.two_columns, "Tempo", "Sinal")
              : @Chromatogram Sample.rationals Sample.peak_finder).
  rewrite (process_chromatogram_hplc_missing_parameter
             (Sample.holding Sample.two_columns) 0 "Tempo" "Sinal" params
             c0
             ["correct_baseline"; "approx_peak_width"] ["prominence"] "buffer"
             eq_refl eq_refl eq_refl eq_refl).
  - reflexivity.
  - intros k Hk. apply py_in_elem_of in Hk. unfold py_in in Hk.
    simpl in Hk.
    destruct (String.eqb_spec k "correct_baseline") as [Hk1|_];
      [rewrite Hk1; by eexists|].
    destruct (String.eqb_spec k "approx_peak_width") as [Hk2|_];
      [rewrite Hk2; by eexists|].
    discriminate.
  - reflexivity.
Defined.

(** The sidebar of an untouched run and the adapter: the fit is called and
    its table, the highest point, is returned. *)
Lemma fit_peaks_gets_the_sidebar_values_witness :
  in_columns "Tempo" (frame_at (Sample.holding Sample.two_columns) 0) = true
  ∧ in_columns "Sinal" (frame_at (Sample.holding Sample.two_columns) 0) = true
  ∧ ∃ params σ1,
      sidebar true Sample.untouched Sample.start = (Ok params, σ1)
      ∧ fst (process_chromatogram_hplc true 0 "Tempo" "Sinal" params
               (Sample.holding Sample.two_columns))
        = Ok (Some ((Sample.two_columns, "Tempo", "Sinal")
                    : @Chromatogram Sample.rationals Sample.peak_finder), 1).
Proof.
  split; [reflexivity|]. split; [reflexivity|].
  pose (c0 := (Sample.two_columns, "Tempo", "Sinal")
              : @Chromatogram Sample.rationals Sample.peak_finder).
  destruct (fit_peaks_gets_the_sidebar_values Sample.untouched Sample.start
              (Sample.holding Sample.two_columns) 0 "Tempo" "Sinal"
              c0 eq_refl eq_refl eq_refl)
    as (params & σ1 & Hside & Hrun).
  exists params, σ1. split; [exact Hside|].
  cbv zeta in Hrun. rewrite Hrun. reflexivity.
Defined.

(** The panel on a table of one peak without the [area] column. *)
Lemma peaks_panel_statistics_witness :
  empty (frame_at (Sample.holding Faults.one_peak_no_area) 0) = false
  ∧ column "area" (frame_at (Sample.holding Faults.one_peak_no_area) 0) = None
  ∧ fst (peaks_panel true 0 (Sample.holding Faults.one_peak_no_area)) = Ok tt
  ∧ length (trace (snd (peaks_panel true 0
                          (Sample.holding Faults.one_peak_no_area)))) = 5.
Proof.
  split; [reflexivity|]. split; [reflexivity|].
  rewrite (proj1 (peaks_panel_statistics
                    (Sample.holding Faults.one_peak_no_area) 0 eq_refl)
             (or_intror eq_refl)).
  split; reflexivity.
Defined.

(** The button on an empty file: the read fails and is reported. *)
Lemma process_reports_failed_read_witness :
  let e := Exc (OtherError "EmptyDataError") "No columns to parse from file" in
  fallback (file_buffer Sample.start) (Some ",") None
  = (Raises e, [PdReadCsv (Some ",") None utf_8 0], 0)
  ∧ process true (Some ",") "Tempo" "Sinal" "Segundos" Sample.default_params
      Sample.start
    = (Ok tt,
       State [] [] 0
         ([PdReadCsv (Some ",") None utf_8 0] ++ processing_error e)).
Proof.
  intros e.
  assert (fallback (file_buffer Sample.start) (Some ",") None
          = (Raises e, [PdReadCsv (Some ",") None utf_8 0], 0)) as Hfb
    by (vm_compute; reflexivity).
  split; [exact Hfb|].
  exact (process_reports_failed_read true (Some ",") "Tempo" "Sinal"
           "Segundos" Sample.default_params Sample.start e _ _ Hfb).
Defined.

(** The button on [late_text], whose time column is text, with the unit
    "Segundos". *)
Lemma process_reports_text_time_witness :
  let σ := State [] Sample.late_text 0 [] in
  let s := map (@CStr Sample.rationals)
             ["1"; "2"; "3"; "4"; "5"; "6"; "7"; "8"; "9"; "10"; "fim"] in
  fallback (file_buffer σ) (Some ",") None
  = (Returns Sample.late_text_frame, [PdReadCsv (Some ",") None utf_8 0],
     length Sample.late_text)
  ∧ column "Tempo" Sample.late_text_frame = Some s
  ∧ numeric s = false
  ∧ fst (process true (Some ",") "Tempo" "Sinal" "Segundos"
           Sample.default_params σ)
    = Ok tt
  ∧ last (trace (snd (process true (Some ",") "Tempo" "Sinal" "Segundos"
                        Sample.default_params σ)))
    = Some (StException
              (Exc TypeError
                 "unsupported operand type(s) for /: 'str' and 'int'")).
Proof.
  intros σ s.
  assert (fallback (file_buffer σ) (Some ",") None
          = (Returns Sample.late_text_frame,
             [PdReadCsv (Some ",") None utf_8 0], length Sample.late_text))
    as Hfb by (vm_compute; reflexivity).
  split; [exact Hfb|]. split; [reflexivity|]. split; [reflexivity|].
  rewrite (process_reports_text_time true (Some ",") "Tempo" "Sinal"
             "Segundos" Sample.default_params σ Sample.late_text_frame s _ _
             Hfb eq_refl eq_refl (or_introl eq_refl)).
  split; reflexivity.
Defined.

(** The upload of an empty file: the preview read fails and is reported;
    and the upload of [ragged_file] to the strict reader: the preview is
    read, the whole file is not. *)
Lemma with_uploaded_file_reports_failed_read_witness :
  let e := Exc (OtherError "EmptyDataError") "No columns to parse from file" in
  let e' := Exc (OtherError "ParserError") "Error tokenizing data" in
  let file := {| name := "dados.csv"; getvalue := Faults.ragged_file |} in
  fst (fst (fallback [] (Some ",") (Some 10))) = Raises e
  ∧ last (trace (snd (with_uploaded_file true (Sample.upload [] 0 false)
                        {| name := "dados.csv"; getvalue := [] |}
                        Sample.default_params Sample.start)))
    = Some (StException e)
  ∧ fst (fst (@fallback Sample.rationals Faults.strict_reader
                Faults.ragged_file (Some ",") (Some 10)))
    = Returns Sample.late_text_preview
  ∧ fst (fst (@fallback Sample.rationals Faults.strict_reader
                Faults.ragged_file (Some ",") None))
    = Raises e'
  ∧ last (trace (snd (@with_uploaded_file Sample.rationals
                        Faults.strict_reader Sample.peak_finder true
                        (Sample.upload Faults.ragged_file 0 false) file
                        Sample.default_params Sample.start)))
    = Some (StException e').
Proof.
  intros e e' file.
  destruct (fallback [] (Some ",") (Some 10)) as [[r1 evs1] pos1] eqn:Hfb1.
  assert (r1 = Raises e) as -> by (by vm_compute in Hfb1; simplify_eq).
  destruct (@fallback Sample.rationals Faults.strict_reader
              Faults.ragged_file (Some ",") (Some 10))
    as [[r2 evs2] pos2] eqn:Hfb2.
  assert (r2 = Returns Sample.late_text_preview) as ->
    by (by vm_compute in Hfb2; simplify_eq).
  destruct (@fallback Sample.rationals Faults.strict_reader
              Faults.ragged_file (Some ",") None)
    as [[r3 evs3] pos3] eqn:Hfb3.
  assert (r3 = Raises e') as -> by (by vm_compute in Hfb3; simplify_eq).
  split; [reflexivity|]. split.
  - rewrite (proj1 (with_uploaded_file_reports_failed_read true
               (Sample.upload [] 0 false)
               {| name := "dados.csv"; getvalue := [] |}
               Sample.default_params Sample.start e) evs1 pos1 Hfb1).
    cbn [snd trace]. rewrite !app_assoc. apply last_app_Some; by left.
  - split; [reflexivity|]. split; [reflexivity|].
    rewrite (proj2 (@with_uploaded_file_reports_failed_read Sample.rationals
               Faults.strict_reader Sample.peak_finder true
               (Sample.upload Faults.ragged_file 0 false) file
               Sample.default_params Sample.start e')
               Sample.late_text_preview evs2 pos2 evs3 pos3 Hfb2 Hfb3).
    cbn [snd trace]. rewrite !app_assoc. apply last_app_Some; by left.
Defined.

(** The upload of [scenario1]: both reads return, and the hint of the read
    error is not shown, the button pressed. *)
Lemma read_error_only_for_reads_witness :
  let file := {| name := "dados.csv"; getvalue := Sample.scenario1 |} in
  let w := Sample.upload Sample.scenario1 0 true in
  fst (fst (fallback Sample.scenario1 (chosen_delimiter w) (Some 10)))
  = Returns Sample.scenario1_frame
  ∧ fst (fst (fallback Sample.scenario1 (chosen_delimiter w) None))
    = Returns Sample.scenario1_frame
  ∧ ∃ evs,
      trace (snd (with_uploaded_file true w file Sample.default_params
                    Sample.start))
      = trace Sample.start ++ evs
      ∧ Forall (λ ev, ev ≠ read_error_hint) evs.
Proof.
  intros file w.
  assert (fst (fst (fallback Sample.scenario1 (chosen_delimiter w) (Some 10)))
          = Returns Sample.scenario1_frame) as Hprev
    by (vm_compute; reflexivity).
  assert (fst (fst (fallback Sample.scenario1 (chosen_delimiter w) None))
          = Returns Sample.scenario1_frame) as Hinfo
    by (vm_compute; reflexivity).
  split; [exact Hprev|]. split; [exact Hinfo|].
  exact (proj2 (read_error_only_for_reads true w file Sample.default_params
                  Sample.start Sample.scenario1_frame Sample.scenario1_frame
                  Hprev Hinfo)).
Defined.

(** The panel on a preview without columns, with the strict [describe]. *)
Lemma preview_panel_statistics_failure_witness :
  let σ := State [DataFrame_new] Sample.scenario1 0 [] in
  let file := {| name := "dados.csv"; getvalue := Sample.scenario1 |} in
  let e := Exc (OtherError "ValueError")
               "Cannot describe a DataFrame without columns" in
  @fallback Sample.rationals Faults.strict_reader (file_buffer σ) (Some ",")
    None
  = (Returns Sample.scenario1_frame, [PdReadCsv (Some ",") None utf_8 0],
     length Sample.scenario1)
  ∧ @describe Sample.rationals Faults.strict_reader (frame_at σ 0) = Raises e
  ∧ ∃ σ',
      @preview_panel Sample.rationals Faults.strict_reader file (Some ",") 0 σ
      = (Ok 1, σ')
      ∧ frame_at σ' 1 = Sample.scenario1_frame.
Proof.
  intros σ file e.
  assert (@fallback Sample.rationals Faults.strict_reader (file_buffer σ)
            (Some ",") None
          = (Returns Sample.scenario1_frame,
             [PdReadCsv (Some ",") None utf_8 0], length Sample.scenario1))
    as Hfb by (vm_compute; reflexivity).
  split; [exact Hfb|]. split; [reflexivity|].
  destruct (@preview_panel_statistics_failure Sample.rationals
              Faults.strict_reader file (Some ",") 0 σ
              Sample.scenario1_frame _ _ e Hfb eq_refl)
    as (σ' & Hrun & Hframe & _).
  exists σ'. split; [exact Hrun | exact Hframe].
Defined.


(** The plot of [scenario1] in minutes with a table of one peak: the curve,
    then the marker, the drop line and the legend. *)
Lemma plot_chromatogram_figure_witness :
  let σ := State [Sample.scenario1_minutes; Faults.one_peak] [] 0 [] in
  empty (frame_at σ 1) = false
  ∧ ∃ fig labels,
      trace (snd (plot_chromatogram 0 "Tempo" "Sinal" 1 σ))
      = [StSubheader "Cromatograma"; StPyplot fig]
      ∧ fig
        = [AxPlot (map CNum [0%Q; (1 # 60)%Q; (1 # 30)%Q])
             (map CNum [0%Q; 60%Q; 0%Q]) "b-";
           AxPlotPeaks [CNum 1%Q] [CNum 60%Q] "ro" "Picos Detetados";
           AxVlines [CNum 1%Q] [CNum 60%Q]; AxLegend] ++ labels.
Proof.
  intros σ. split; [reflexivity|].
  destruct (plot_chromatogram_figure σ 0 1 "Tempo" "Sinal")
    as (evs & fig & Hrun & _ & Hfig).
  destruct (Hfig (map (@CNum Sample.rationals) [0%Q; (1 # 60)%Q; (1 # 30)%Q])
              (map (@CNum Sample.rationals) [0%Q; 60%Q; 0%Q]) eq_refl eq_refl)
    as (-> & peaks & -> & _ & Hpeaks).
  rewrite (Hpeaks [@CNum Sample.rationals 1%Q] [@CNum Sample.rationals 60%Q]
             eq_refl eq_refl eq_refl) in Hrun.
  rewrite Hrun. eexists _, _. split; reflexivity.
Defined.

(** The select boxes on a frame of one column, untouched: both give it. *)
Lemma select_columns_gives_columns_witness :
  ∃ σ',
    select_columns Sample.untouched ["Tempo;Sinal"] Sample.start
    = (Ok (Some "Tempo;Sinal", Some "Tempo;Sinal", Some "Segundos"), σ').
Proof.
  destruct (select_columns_gives_columns Sample.untouched ["Tempo;Sinal"]
              Sample.start)
    as (t & s & u & Hrun & _ & _ & _ & _ & _ & Hu & Hone).
  destruct (Hone "Tempo;Sinal" eq_refl eq_refl eq_refl) as [-> ->].
  rewrite (Hu eq_refl) in Hrun. eexists. exact Hrun.
Defined.

(** A run of [main] with a reader that finds no column: halted, the
    column-detection error shown last. *)
Lemma main_ends_witness :
  fst (@main Sample.rationals Sample.blank_reader Sample.peak_finder true
         (Sample.upload Sample.semicolons 0 false) Sample.start)
  = Halt
  ∧ last (trace (snd (@main Sample.rationals Sample.blank_reader
                        Sample.peak_finder true
                        (Sample.upload Sample.semicolons 0 false)
                        Sample.start)))
    = Some (StError "Não foram detetadas colunas no ficheiro. Verifique o delimitador.").
Proof.
  assert (fst (@main Sample.rationals Sample.blank_reader Sample.peak_finder
                 true (Sample.upload Sample.semicolons 0 false) Sample.start)
          = Halt) as Hhalt by (vm_compute; reflexivity).
  split; [exact Hhalt|].
  destruct (proj1 (@main_ends Sample.rationals Sample.blank_reader
                     Sample.peak_finder true
                     (Sample.upload Sample.semicolons 0 false) Sample.start))
    as [Hok | (_ & _ & Hlast)]; [|exact Hlast].
  rewrite Hhalt in Hok. discriminate.
Defined.

End FurtherRuns.
